(** * Planting-Optimisation-Tool: the GIS extraction core

    A shallow embedding of [gis/core/extract_data.py] and
    [gis/core/farm_profile.py], and the properties of the specification
    that are settled on it.

    Conventions of the embedding.
    - Python values are the inductive [pyval]; a Python [float] is a
      binary64 number ([PrimFloat.float]), so [*] and [+] round exactly as
      the interpreter does.
    - A Python [str] is the [string] of its UTF-8 bytes, so every text is
      representable and an ASCII literal is itself.
    - A call that can raise returns a [result]; [Raise] carries the
      exception (class name and [str(e)]).  Only subclasses of [Exception]
      are modelled.
    - The Earth Engine client builds deferred expressions; they are the
      terms of [ee_obj].  The calls that talk to the service
      ([getInfo], [first]) are parameters of the development, and so are
      the modules of the repository that the extraction code imports
      ([config.settings], [core.geometry_parser]). *)

From Stdlib Require Import ZArith String Ascii List Floats Lia.
From stdpp Require Import base option gmap strings pretty.

#[local] Set Warnings "-register-all,-inexact-float".

Local Open Scope string_scope.
Local Open Scope Z_scope.

(* ===================================================================== *)
(** ** Python values, exceptions and results                              *)
(* ===================================================================== *)

Inductive pyval : Type :=
| VNone
| VBool (b : bool)
| VInt (z : Z)
| VFloat (x : float)
| VStr (s : string)
| VList (l : list pyval)
| VDict (items : list (string * pyval)).

(** An exception: its class and the text [str(e)] gives. *)
Record exn : Type := mkExn { exn_class : string; exn_str : string }.

Inductive result (A : Type) : Type :=
| Ok (a : A)
| Raise (e : exn).

Arguments Ok {A} a.
Arguments Raise {A} e.

(** The error monad; sequencing is written [x ← m; k] (stdpp's notation). *)
#[global] Instance result_ret : MRet result := fun A a => Ok a.
#[global] Instance result_bind : MBind result := fun A B k m =>
  match m with
  | Ok a => k a
  | Raise e => Raise e
  end.

Definition KeyError (key : string) : exn := mkExn "KeyError" ("'" +:+ key +:+ "'").
Definition TypeError (msg : string) : exn := mkExn "TypeError" msg.
Definition ValueError (msg : string) : exn := mkExn "ValueError" msg.
Definition OverflowError (msg : string) : exn := mkExn "OverflowError" msg.
Definition IndexError (msg : string) : exn := mkExn "IndexError" msg.

(** [type(v).__name__], as the messages of [TypeError] quote it. *)
Definition type_name (v : pyval) : string :=
  match v with
  | VNone => "NoneType"
  | VBool _ => "bool"
  | VInt _ => "int"
  | VFloat _ => "float"
  | VStr _ => "str"
  | VList _ => "list"
  | VDict _ => "dict"
  end.

(** [isinstance(v, (int, float))]; [bool] is a subclass of [int]. *)
Definition is_int_or_float (v : pyval) : bool :=
  match v with
  | VBool _ | VInt _ | VFloat _ => true
  | _ => false
  end.

(** [v is None]. *)
Definition is_None (v : pyval) : bool :=
  match v with VNone => true | _ => false end.

(** [v == s] for a string literal [s]; a value of another type is unequal. *)
Definition py_eq_str (v : pyval) (s : string) : bool :=
  match v with
  | VStr t => String.eqb t s
  | _ => false
  end.

(** Truth value of an object, as [if v:] and [v and ...] test it. *)
Definition py_truthy (v : pyval) : bool :=
  match v with
  | VNone => false
  | VBool b => b
  | VInt z => negb (z =? 0)
  | VFloat x => negb (PrimFloat.eqb x 0%float)
  | VStr s => negb (String.eqb s "")
  | VList l => match l with [] => false | _ => true end
  | VDict d => match d with [] => false | _ => true end
  end.

(* ===================================================================== *)
(** ** Strings: [strip], [lower], [split(",")[0]], [in]                   *)
(* ===================================================================== *)

(** The code points below 128 that [str.strip] removes: TAB..CR, FS..US
    and the space.  The whitespace beyond ASCII is in [ws2] and [ws3]
    below. *)
Definition is_space (c : ascii) : bool :=
  let n := N_of_ascii c in
  ((9 <=? n) && (n <=? 13) || (28 <=? n) && (n <=? 32))%N.

Definition is_upper (c : ascii) : bool :=
  let n := N_of_ascii c in ((65 <=? n) && (n <=? 90))%N.

Definition to_lower (c : ascii) : ascii :=
  if is_upper c then ascii_of_N (N_of_ascii c + 32) else c.

Fixpoint str_lower (s : string) : string :=
  match s with
  | EmptyString => EmptyString
  | String c s' => String (to_lower c) (str_lower s')
  end.

Fixpoint str_lstrip (s : string) : string :=
  match s with
  | EmptyString => EmptyString
  | String c s' => if is_space c then str_lstrip s' else s
  end.

Fixpoint str_rstrip (s : string) : string :=
  match s with
  | EmptyString => EmptyString
  | String c s' =>
      match str_rstrip s' with
      | EmptyString => if is_space c then EmptyString else String c EmptyString
      | t => String c t
      end
  end.

Definition str_strip (s : string) : string := str_rstrip (str_lstrip s).

(** [str_lower], [str_lstrip], [str_rstrip] and [str_strip] above are the
    operations on ASCII text.  On any text, [str.strip()] removes the
    characters Python counts as whitespace; beyond ASCII these are U+0085
    and U+00A0 (two bytes in UTF-8) and U+1680, U+2000..U+200A, U+2028,
    U+2029, U+202F, U+205F and U+3000 (three bytes). *)
Fixpoint str_is_ascii (s : string) : bool :=
  match s with
  | EmptyString => true
  | String c s' => (N_of_ascii c <? 128)%N && str_is_ascii s'
  end.

Definition ws2 (a b : ascii) : bool :=
  let a := N_of_ascii a in
  let b := N_of_ascii b in
  ((a =? 194) && ((b =? 133) || (b =? 160)))%N.

Definition ws3 (a b c : ascii) : bool :=
  let a := N_of_ascii a in
  let b := N_of_ascii b in
  let c := N_of_ascii c in
  ((a =? 225) && (b =? 154) && (c =? 128)
   || (a =? 226) && (b =? 128)
      && ((128 <=? c) && (c <=? 138) || (c =? 168) || (c =? 169) || (c =? 175))
   || (a =? 226) && (b =? 129) && (c =? 159)
   || (a =? 227) && (b =? 128) && (c =? 128))%N.

(** [s.lstrip()]. *)
Fixpoint py_lstrip (s : string) : string :=
  match s with
  | EmptyString => EmptyString
  | String a r =>
      if is_space a then py_lstrip r
      else
        match r with
        | String b r2 =>
            if ws2 a b then py_lstrip r2
            else
              match r2 with
              | String c r3 => if ws3 a b c then py_lstrip r3 else s
              | EmptyString => s
              end
        | EmptyString => s
        end
  end.

Definition str_is_empty (s : string) : bool :=
  match s with EmptyString => true | _ => false end.

(** The text is made of whitespace only. *)
Definition all_space (s : string) : bool := str_is_empty (py_lstrip s).

(** [s.rstrip()]: nothing is left of a text of whitespace only; otherwise
    the first byte stays and the rest is trimmed. *)
Fixpoint py_rstrip (s : string) : string :=
  match s with
  | EmptyString => EmptyString
  | String a r => if all_space s then EmptyString else String a (py_rstrip r)
  end.

(** [s.strip()]. *)
Definition py_strip (s : string) : string := py_rstrip (py_lstrip s).

(** The characters of a text: every byte that is not a continuation byte
    (0x80..0xBF) starts one. *)
Definition is_continuation (a : ascii) : bool :=
  let n := N_of_ascii a in ((128 <=? n) && (n <=? 191))%N.

Fixpoint utf8_chars (s : string) : list string :=
  match s with
  | EmptyString => []
  | String a r =>
      match r with
      | String b _ =>
          if is_continuation b then
            match utf8_chars r with
            | c :: cs => String a c :: cs
            | [] => [String a EmptyString]
            end
          else String a EmptyString :: utf8_chars r
      | EmptyString => [String a EmptyString]
      end
  end.

(** [sep in s] for a one-character [sep]. *)
Fixpoint str_contains (sep : ascii) (s : string) : bool :=
  match s with
  | EmptyString => false
  | String c s' => Ascii.eqb c sep || str_contains sep s'
  end.

(** [s.split(sep)[0]]: the text before the first [sep], all of [s] when
    there is none. *)
Fixpoint str_split_head (sep : ascii) (s : string) : string :=
  match s with
  | EmptyString => EmptyString
  | String c s' =>
      if Ascii.eqb c sep then EmptyString else String c (str_split_head sep s')
  end.

Definition comma : ascii := ","%char.

(* ===================================================================== *)
(** ** Numbers: [float(int)], [round(x)], and float arithmetic            *)
(* ===================================================================== *)

(** The integer nearest to [m * 2^e] for [0 <= m], ties to the even one:
    what [round(x)] with one argument returns for the float of mantissa
    [m] and exponent [e]. *)
Definition round_half_even (m e : Z) : Z :=
  if 0 <=? e then m * 2 ^ e
  else
    let d := 2 ^ (- e) in
    let q := m / d in
    let r := m mod d in
    if 2 * r <? d then q
    else if d <? 2 * r then q + 1
    else if Z.even q then q else q + 1.

(** [round(x)] for a float [x]: an [int], or the error CPython raises on
    an infinity or a NaN. *)
Definition float_round (x : float) : result Z :=
  match Prim2SF x with
  | S754_zero _ => Ok 0
  | S754_finite s m e =>
      let n := round_half_even (Z.pos m) e in
      Ok (if s then - n else n)
  | S754_infinity _ =>
      Raise (OverflowError "cannot convert float infinity to integer")
  | S754_nan =>
      Raise (ValueError "cannot convert float NaN to integer")
  end.

(** [x] is a finite number (neither an infinity nor a NaN). *)
Definition float_is_finite (x : float) : bool :=
  match Prim2SF x with
  | S754_zero _ | S754_finite _ _ _ => true
  | _ => false
  end.

(** [n] is an integer nearest to the finite float [x]: with [x = sm * 2^e]
    and [D = 2^max(0,-e)], [|n*D - x*D| <= D/2]. *)
Definition nearest_integer (x : float) (n : Z) : Prop :=
  match Prim2SF x with
  | S754_zero _ => n = 0
  | S754_finite s m e =>
      let sm := if s then Z.neg m else Z.pos m in
      let D := 2 ^ Z.max 0 (- e) in
      2 * Z.abs (n * D - sm * 2 ^ Z.max 0 e) <= D
  | _ => False
  end.

(** [float(z)] for an [int]: the nearest binary64 number, ties to even;
    [OverflowError] when that is out of range. *)
Definition float_of_int (z : Z) : result float :=
  let x := SF2Prim (binary_normalize prec emax z 0 false) in
  if float_is_finite x then Ok x
  else Raise (OverflowError "int too large to convert to float").

Definition float_of_bool (b : bool) : float :=
  if b then 1%float else 0%float.

(** The right operand of [value *= v] and [value += v] as a float, for
    a float [value]; [op] is the operator as the message prints it.  A
    [str] or a [list] on the right of [*=] is a sequence repeated by a
    float. *)
Definition float_operand (op : string) (v : pyval) : result float :=
  match v with
  | VFloat y => Ok y
  | VInt z => float_of_int z
  | VBool b => Ok (float_of_bool b)
  | VStr _ | VList _ =>
      if String.eqb op "*=" then
        Raise (TypeError "can't multiply sequence by non-int of type 'float'")
      else
        Raise (TypeError ("unsupported operand type(s) for " +:+ op +:+
                          ": 'float' and '" +:+ type_name v +:+ "'"))
  | _ =>
      Raise (TypeError ("unsupported operand type(s) for " +:+ op +:+
                        ": 'float' and '" +:+ type_name v +:+ "'"))
  end.

(** [x *= v] and [x += v] for a float [x]. *)
Definition float_mul (x : float) (v : pyval) : result float :=
  y ← float_operand "*=" v; Ok (x * y)%float.

Definition float_add (x : float) (v : pyval) : result float :=
  y ← float_operand "+=" v; Ok (x + y)%float.

(** The [TypeError] of [round(v)] and [round(v, n)] on a value that has
    no [__round__]. *)
Definition no_round_method (v : pyval) : exn :=
  TypeError ("type " +:+ type_name v +:+ " doesn't define __round__ method").

(** [round(v)] with one argument, then [int(...)] of the [int] it returns
    (the identity): the [int(round(value))] of the code. *)
Definition py_int_round (v : pyval) : result Z :=
  match v with
  | VFloat x => float_round x
  | VInt z => Ok z
  | VBool b => Ok (if b then 1 else 0)
  | _ => Raise (no_round_method v)
  end.

(** [v[i]] for a literal index [i >= 0]; a [str] is indexed by
    character. *)
Definition py_getitem (v : pyval) (i : nat) : result pyval :=
  match v with
  | VList l =>
      match l !! i with
      | Some x => Ok x
      | None => Raise (IndexError "list index out of range")
      end
  | VStr s =>
      match utf8_chars s !! i with
      | Some c => Ok (VStr c)
      | None => Raise (IndexError "string index out of range")
      end
  | VDict _ => Raise (mkExn "KeyError" (pretty i))
  | _ => Raise (TypeError ("'" +:+ type_name v +:+ "' object is not subscriptable"))
  end.

(* ===================================================================== *)
(** ** Dictionaries                                                       *)
(* ===================================================================== *)

(** A dataset configuration is a [dict] keyed by strings. *)
Abbreviation config := (gmap string pyval).

(** [d[k]]. *)
Definition getitem (d : config) (k : string) : result pyval :=
  match d !! k with
  | Some v => Ok v
  | None => Raise (KeyError k)
  end.

(** [d.get(k, dflt)]. *)
Definition dict_get (d : config) (k : string) (dflt : pyval) : pyval :=
  default dflt (d !! k).

(** Lookup in a dict literal kept in insertion order ([VDict]). *)
Fixpoint items_lookup (k : string) (items : list (string * pyval)) : option pyval :=
  match items with
  | [] => None
  | (k', v) :: rest => if String.eqb k' k then Some v else items_lookup k rest
  end.

(** [k in d] for a value [d]; false for a value that is not a dict. *)
Definition has_key (d : pyval) (k : string) : bool :=
  match d with
  | VDict items => bool_decide (is_Some (items_lookup k items))
  | _ => false
  end.

(* ===================================================================== *)
(** ** Earth Engine expressions                                           *)
(* ===================================================================== *)

Inductive ee_reducer : Type :=
| Reducer_mean | Reducer_sum | Reducer_median | Reducer_min | Reducer_max.

(** The deferred expressions the client library builds; nothing is
    evaluated before [getInfo] (or [first], see [Runtime]). *)
Inductive ee_obj : Type :=
| ee_Geometry (raw : pyval)
| ee_Feature (properties : pyval)
| ee_Image (asset_id : pyval)
| ee_ImageCollection (asset_id : pyval)
| ee_FeatureCollection (asset_id : pyval)
| ee_filterDate (collection : ee_obj) (start stop : string)
| ee_select (obj : ee_obj) (band : pyval)
| ee_sum (collection : ee_obj)
| ee_mean (collection : ee_obj)
| ee_Terrain_slope (dem : ee_obj)
| ee_reduceRegion (img : ee_obj) (reducer : ee_reducer) (geometry : ee_obj)
    (scale : pyval) (maxPixels : float)
| ee_get (obj : ee_obj) (key : pyval)
| ee_filterBounds (fc : ee_obj) (geometry : ee_obj)
| ee_area (geometry : ee_obj) (maxError : Z)
| ee_centroid (geometry : ee_obj) (maxError : Z)
| ee_coordinates (geometry : ee_obj).

(** What the extraction code imports and does not define.

    - [get_dataset_config], [TEXTURE_MAP]: [config/settings.py].
    - [parse_geometry]: [core/geometry_parser.py].
    - [getInfo]: the round trip to the Earth Engine service that evaluates
      an expression.
    - [first]: [collection.first()], the first element of a collection or
      [None] when it is empty, which is how the code tests it
      ([if feature is None]) and how the specification describes the
      service (firstIntersectingFeature -> feature|absent).
    - [round_ndigits x n]: the builtin [round(x, n)] on a float, for
      [n >= 0]; [float_of_str]: [float(s)] on a string; [runtime_str]:
      [str(v)] on a float or a container.  These three go through the
      decimal conversions of the C runtime.
    - [unicode_lower]: [s.lower()] on a text with a character beyond
      ASCII, which goes through the Unicode character database. *)
Class Runtime : Type := {
  get_dataset_config : string -> result config;
  TEXTURE_MAP : gmap string Z;
  parse_geometry : pyval -> result ee_obj;
  getInfo : ee_obj -> result pyval;
  first : ee_obj -> result (option ee_obj);
  round_ndigits : float -> nat -> float;
  float_of_str : string -> result float;
  runtime_str : pyval -> string;
  unicode_lower : string -> string;
  (* no character is lower-cased to nothing *)
  unicode_lower_nonempty : forall s, unicode_lower s = EmptyString -> s = EmptyString
}.

(** The argument of [_ee_to_float]: a deferred expression (it has a
    [getInfo] attribute) or a local Python scalar. *)
Inductive scalar_ref : Type :=
| Remote (obj : ee_obj)
| Local (v : pyval).

(* ===================================================================== *)
(** ** gis/core/extract_data.py                                           *)
(* ===================================================================== *)

Section ExtractData.
Context `{RT : Runtime}.

(** [float(v)]. *)
Definition py_float (v : pyval) : result float :=
  match v with
  | VFloat x => Ok x
  | VInt z => float_of_int z
  | VBool b => Ok (float_of_bool b)
  | VStr s => float_of_str s
  | _ =>
      Raise (TypeError ("float() argument must be a string or a real number, not '"
                        +:+ type_name v +:+ "'"))
  end.

(** [str(v)]. *)
Definition py_str (v : pyval) : string :=
  match v with
  | VNone => "None"
  | VBool b => if b then "True" else "False"
  | VInt z => pretty z
  | VStr s => s
  | _ => runtime_str v
  end.

(** [round(v, n)] for [n >= 0]: a float stays a float, an int is
    returned unchanged. *)
Definition py_round_ndigits (v : pyval) (n : nat) : result pyval :=
  match v with
  | VFloat x => Ok (VFloat (round_ndigits x n))
  | VInt z => Ok (VInt z)
  | VBool b => Ok (VInt (if b then 1 else 0))
  | _ => Raise (no_round_method v)
  end.

(** [s.lower()]: on ASCII text the letters A..Z are replaced and nothing
    else. *)
Definition py_lower (s : string) : string :=
  if str_is_ascii s then str_lower s else unicode_lower s.

Definition _ee_to_float (value : scalar_ref) : result (option float) :=
  match value with
  | Local VNone => Ok None
  | Local v => x ← py_float v; Ok (Some x)
  | Remote obj =>
      v ← getInfo obj;
      if is_None v then Ok None else x ← py_float v; Ok (Some x)
  end.

Definition _apply_post_process (value : pyval) (post_process : pyval) : result pyval :=
  if is_None value then Ok VNone
  else if py_eq_str post_process "round_int" then
    z ← py_int_round value; Ok (VInt z)
  else if py_eq_str post_process "round_1dp" then py_round_ndigits value 1
  else if py_eq_str post_process "round_2dp" then py_round_ndigits value 2
  else if py_eq_str post_process "round_3dp" then py_round_ndigits value 3
  else Ok value.

(** The dict literal of [_get_reducer]. *)
Definition reducers : gmap string ee_reducer :=
  {[ "mean" := Reducer_mean; "sum" := Reducer_sum; "median" := Reducer_median;
     "min" := Reducer_min; "max" := Reducer_max ]}.

Definition _get_reducer (reducer_name : pyval) : result ee_reducer :=
  match reducer_name with
  | VStr s => Ok (default Reducer_mean (reducers !! s))
  | VList _ | VDict _ =>
      Raise (TypeError ("unhashable type: '" +:+ type_name reducer_name +:+ "'"))
  | _ => Ok Reducer_mean
  end.

(** [if year] for [year : int | None]. *)
Definition year_truthy (year : option Z) : bool :=
  match year with
  | Some y => negb (y =? 0)
  | None => false
  end.

(** The f-string [f"{year}<suffix>"]. *)
Definition fstring_year (year : option Z) (suffix : string) : string :=
  match year with
  | Some y => pretty y +:+ suffix
  | None => "None" +:+ suffix
  end.

(** Lines 78-99 of [_extract_from_raster] ("Load dataset"): the image to
    reduce and the band to read. *)
Definition load_dataset (config : config) (year : option Z) : result (ee_obj * pyval) :=
  if year_truthy year && py_truthy (dict_get config "temporal" (VBool false)) then
    asset_id ← getitem config "asset_id";
    let collection := ee_ImageCollection asset_id in
    let collection :=
      ee_filterDate collection (fstring_year year "-01-01") (fstring_year year "-12-31") in
    band ← getitem config "band";
    let collection := ee_select collection band in
    let reducer_name := dict_get config "reducer" (VStr "mean") in
    let img :=
      if py_eq_str reducer_name "sum" then ee_sum collection else ee_mean collection in
    band_name ← getitem config "band";
    Ok (img, band_name)
  else
    asset_id ← getitem config "asset_id";
    band ← getitem config "band";
    let img := ee_select (ee_Image asset_id) band in
    band_name ← getitem config "band";
    Ok (img, band_name).

(** [if key in config: value *= config[key]] and the [+=] variant. *)
Definition scale_if_present (config : config) (key : string) (value : float) : result float :=
  match config !! key with
  | Some k => float_mul value k
  | None => Ok value
  end.

Definition add_if_present (config : config) (key : string) (value : float) : result float :=
  match config !! key with
  | Some k => float_add value k
  | None => Ok value
  end.

Definition post_process_if_present (config : config) (value : float) : result pyval :=
  match config !! "post_process" with
  | Some pp => _apply_post_process (VFloat value) pp
  | None => Ok (VFloat value)
  end.

(** Lines 101-110 ("Extract value"): reduce the image over the geometry
    and fetch the band's value. *)
Definition reduce_region
    (config : config) (geometry img : ee_obj) (band_name : pyval) : result (option float) :=
  reducer ← _get_reducer (dict_get config "reducer" (VStr "mean"));
  scale ← getitem config "scale";
  let stats := ee_reduceRegion img reducer geometry scale 1e9%float in
  _ee_to_float (Remote (ee_get stats band_name)).

(** Lines 112-129: the early [return None], the transformations and the
    post-processing. *)
Definition raster_transformations (config : config) (value : option float) : result pyval :=
  match value with
  | None => Ok VNone
  | Some value =>
      value ← scale_if_present config "scale_factor" value;
      value ← add_if_present config "offset" value;
      value ← add_if_present config "bias_correction" value;
      post_process_if_present config value
  end.

Definition _extract_from_raster
    (geometry : pyval) (dataset_name : string) (year : option Z) : result pyval :=
  config ← get_dataset_config dataset_name;
  geometry ← parse_geometry geometry;
  '(img, band_name) ← load_dataset config year;
  value ← reduce_region config geometry img band_name;
  raster_transformations config value.

(** Lines 157-168 of [_extract_from_vector]. *)
Definition vector_transformations (config : config) (value : option float) : result pyval :=
  match value with
  | None => Ok VNone
  | Some value =>
      value ← scale_if_present config "scale_factor" value;
      post_process_if_present config value
  end.

Definition _extract_from_vector (geometry : pyval) (dataset_name : string) : result pyval :=
  config ← get_dataset_config dataset_name;
  geometry ← parse_geometry geometry;
  asset_id ← getitem config "asset_id";
  let fc := ee_FeatureCollection asset_id in
  feature ← first (ee_filterBounds fc geometry);
  match feature with
  | None => Ok VNone
  | Some feature =>
      field ← getitem config "field";
      value ← _ee_to_float (Remote (ee_get feature field));
      vector_transformations config value
  end.

(** [year or 2024]. *)
Definition year_or (year : option Z) (dflt : Z) : option Z :=
  if year_truthy year then year else Some dflt.

Definition get_rainfall (geometry : pyval) (year : option Z) : result pyval :=
  value ← _extract_from_raster geometry "rainfall" (year_or year 2024);
  if negb (is_None value) then z ← py_int_round value; Ok (VInt z)
  else Ok VNone.

Definition get_temperature (geometry : pyval) (year : option Z) : result pyval :=
  value ← _extract_from_raster geometry "temperature" (year_or year 2024);
  if negb (is_None value) then z ← py_int_round value; Ok (VInt z)
  else Ok VNone.

Definition get_elevation (geometry : pyval) (year : option Z) : result pyval :=
  value ← _extract_from_raster geometry "elevation" None;
  if negb (is_None value) then z ← py_int_round value; Ok (VInt z)
  else Ok VNone.

Definition get_ph (geometry : pyval) (year : option Z) : result pyval :=
  value ← _extract_from_raster geometry "soil_ph" None;
  if negb (is_None value) then
    x ← py_float value; Ok (VFloat (round_ndigits x 1))
  else Ok VNone.

Definition get_slope (geometry : pyval) (year : option Z) : result pyval :=
  geometry ← parse_geometry geometry;
  config ← get_dataset_config "dem";
  asset_id ← getitem config "asset_id";
  band ← getitem config "band";
  let dem := ee_select (ee_Image asset_id) band in
  let slope_img := ee_Terrain_slope dem in
  scale ← getitem config "scale";
  let stats := ee_reduceRegion slope_img Reducer_mean geometry scale 1e9%float in
  value ← _ee_to_float (Remote (ee_get stats (VStr "slope")));
  match value with
  | Some value => Ok (VFloat (round_ndigits value 1))
  | None => Ok VNone
  end.

(** What a call leaves on standard output, next to its result. *)
Definition printed (A : Type) : Type := (result A * list string)%type.

(** The line [get_texture] prints when it catches [e]. *)
Definition texture_warning (e : exn) : string :=
  "Warning: Could not extract soil texture: " +:+ exn_str e.

(** The body of the [try] of [get_texture]. *)
Definition get_texture_try (config : config) (geometry : pyval) : result pyval :=
  geometry ← parse_geometry geometry;
  asset_id ← getitem config "asset_id";
  let fc := ee_FeatureCollection asset_id in
  feature ← first (ee_filterBounds fc geometry);
  match feature with
  | None => Ok VNone
  | Some feature =>
      field ← getitem config "field";
      getInfo (ee_get feature field)
  end.

Definition get_texture (geometry : pyval) (year : option Z) : printed pyval :=
  match get_dataset_config "soil_texture" with
  | Raise e => (Raise e, [])
  | Ok config =>
      match getitem config "type" with
      | Raise e => (Raise e, [])
      | Ok type =>
          if py_eq_str type "raster" then
            (_extract_from_raster geometry "soil_texture" year, [])
          else
            match get_texture_try config geometry with
            | Ok value => (Ok value, [])
            | Raise e => (Ok VNone, [texture_warning e])
            end
      end
  end.

Definition _normalize_texture_name (value : pyval) : option string :=
  if is_None value then None
  else
    let txt := py_lower (py_strip (py_str value)) in
    if str_is_empty txt then None
    else
      let txt :=
        if str_contains comma txt then py_strip (str_split_head comma txt) else txt in
      if String.eqb txt "organic" || String.eqb txt "variable" then None
      else Some txt.

Definition get_texture_id (geometry : pyval) (year : option Z) : printed pyval :=
  let '(r, out) := get_texture geometry year in
  match r with
  | Raise e => (Raise e, out)
  | Ok texture_value =>
      if is_None texture_value then (Ok VNone, out)
      else if is_int_or_float texture_value then (Ok VNone, out)
      else
        match _normalize_texture_name texture_value with
        | None => (Ok VNone, out)
        | Some norm_name =>
            (Ok (match TEXTURE_MAP !! norm_name with
                 | Some id => VInt id
                 | None => VNone
                 end), out)
        end
  end.

Definition get_area_ha (geometry : pyval) : result float :=
  geometry ← parse_geometry geometry;
  v ← getInfo (ee_area geometry 1);
  area_m2 ← py_float v;
  Ok (round_ndigits (area_m2 / 10000)%float 3).

Definition get_centroid_lat_lon (geometry : pyval) : result (float * float) :=
  geom ← parse_geometry geometry;
  let centroid := ee_centroid geom 1 in
  coords ← getInfo (ee_coordinates centroid);
  c0 ← py_getitem coords 0;
  lon ← py_float c0;
  c1 ← py_getitem coords 1;
  lat ← py_float c1;
  Ok (round_ndigits lat 6, round_ndigits lon 6).

(* ===================================================================== *)
(** ** gis/core/farm_profile.py                                           *)
(* ===================================================================== *)

(** The loop over [years]: one [{"year": y, "rainfall_mm": value}] per
    year, in order; the first failing [get_rainfall] aborts it. *)
Fixpoint annual_rainfall (geom_raw : pyval) (years : list Z) : result (list pyval) :=
  match years with
  | [] => Ok []
  | y :: rest =>
      value ← get_rainfall geom_raw (Some y);
      tail ← annual_rainfall geom_raw rest;
      Ok (VDict [("year", VInt y); ("rainfall_mm", value)] :: tail)
  end.

Definition build_farm_profile (farm_id : pyval) (geom_raw : pyval) (years : list Z)
    : result pyval :=
  geom ← parse_geometry geom_raw;
  rainfall ← annual_rainfall geom_raw years;
  Ok (VDict [("farm_id", farm_id); ("geometry", geom_raw); ("rainfall", VList rainfall)]).

End ExtractData.

(* ===================================================================== *)
(** ** The specification's wording, as definitions                        *)
(* ===================================================================== *)

(** One arithmetic step of the transform pipeline. *)
Inductive transform : Type :=
| Multiply (k : pyval)
| AddTo (k : pyval).

Definition apply_transform (t : transform) (x : float) : result float :=
  match t with
  | Multiply k => float_mul x k
  | AddTo k => float_add x k
  end.

(** Steps are applied from the head of the list to its end. *)
Fixpoint run_transforms (ts : list transform) (x : float) : result float :=
  match ts with
  | [] => Ok x
  | t :: ts' => y ← apply_transform t x; run_transforms ts' y
  end.

(** The steps a configuration asks for, in the order the specification
    gives: scale_factor, offset, bias_correction, each only if present. *)
Definition raster_pipeline (cfg : config) : list transform :=
  omap id [Multiply <$> cfg !! "scale_factor";
           AddTo <$> cfg !! "offset";
           AddTo <$> cfg !! "bias_correction"].


(** The roundings a configuration can ask for under post_process. *)
Inductive rounding : Type :=
| ToInteger
| ToDecimals (n : nat).

Definition roundings : gmap string rounding :=
  {[ "round_int" := ToInteger; "round_1dp" := ToDecimals 1;
     "round_2dp" := ToDecimals 2; "round_3dp" := ToDecimals 3 ]}.

(** The rounding a post_process entry names, if it names one. *)
Definition rounding_of (rule : pyval) : option rounding :=
  match rule with
  | VStr name => roundings !! name
  | _ => None
  end.

(** Rounding a number: to the nearest integer (ties to the even one; an
    infinity or a NaN has none and is an error), or to [n] decimals, which
    leaves a float. *)
Definition round_to `{Runtime} (r : rounding) (y : float) : result pyval :=
  match r with
  | ToInteger =>
      match Prim2SF y with
      | S754_zero _ => Ok (VInt 0)
      | S754_finite s m e =>
          let n := round_half_even (Z.pos m) e in
          Ok (VInt (if s then - n else n))
      | S754_infinity _ =>
          Raise (OverflowError "cannot convert float infinity to integer")
      | S754_nan => Raise (ValueError "cannot convert float NaN to integer")
      end
  | ToDecimals n => Ok (VFloat (round_ndigits y n))
  end.

(** Run the steps, then the rounding of the post_process entry if the
    configuration has one that names a rounding. *)
Definition spec_transform `{Runtime}
    (pipeline : list transform) (cfg : config) (x : float) : result pyval :=
  y ← run_transforms pipeline x;
  match cfg !! "post_process" ≫= rounding_of with
  | Some r => round_to r y
  | None => Ok (VFloat y)
  end.

(** The single non-temporal image of a band. *)
Definition single_image (asset_id band : pyval) : ee_obj :=
  ee_select (ee_Image asset_id) band.

(** The collection restricted to the year [y], band selected. *)
Definition yearly_collection (asset_id band : pyval) (y : Z) : ee_obj :=
  ee_select
    (ee_filterDate (ee_ImageCollection asset_id)
       (pretty y +:+ "-01-01") (pretty y +:+ "-12-31"))
    band.

(** Collapse a collection to one image: sum when the configured reducer
    is "sum", mean for any other configured reducer and when none is
    configured. *)
Definition collapse (cfg : config) (collection : ee_obj) : ee_obj :=
  match cfg !! "reducer" with
  | Some (VStr r) => if String.eqb r "sum" then ee_sum collection else ee_mean collection
  | _ => ee_mean collection
  end.

Definition is_temporal (cfg : config) : bool :=
  py_truthy (dict_get cfg "temporal" (VBool false)).

(** The image the specification says is queried: the year's collapsed
    collection whenever the dataset is temporal and a year is supplied. *)
Definition claimed_image (cfg : config) (asset_id band : pyval) (year : option Z) : ee_obj :=
  match year with
  | Some y =>
      if is_temporal cfg then collapse cfg (yearly_collection asset_id band y)
      else single_image asset_id band
  | None => single_image asset_id band
  end.

(** The image the code queries: as [claimed_image], except that the year
    0 counts as no year. *)
Definition loaded_image (cfg : config) (asset_id band : pyval) (year : option Z) : ee_obj :=
  match year with
  | Some y =>
      if is_temporal cfg && negb (y =? 0) then collapse cfg (yearly_collection asset_id band y)
      else single_image asset_id band
  | None => single_image asset_id band
  end.

(** Texture normalization in the specification's words: nothing for
    [None] and for text that is empty once trimmed; otherwise the trimmed
    text is lower-cased, the trimmed text before the first comma is kept
    if there is a comma, and the tokens "organic" and "variable" are
    dropped. *)
Definition normalize_spec `{Runtime} (value : pyval) : option string :=
  match value with
  | VNone => None
  | _ =>
      match py_strip (py_str value) with
      | EmptyString => None
      | trimmed =>
          let txt := py_lower trimmed in
          let token :=
            if str_contains comma txt then py_strip (str_split_head comma txt) else txt in
          if bool_decide (token ∈ ["organic"; "variable"]) then None else Some token
      end
  end.

(** Normalization of ASCII text, written with the operations on ASCII
    text. *)
Definition normalize_ascii (s : string) : option string :=
  let txt := str_lower (str_strip s) in
  if str_is_empty txt then None
  else
    let txt :=
      if str_contains comma txt then str_strip (str_split_head comma txt) else txt in
    if String.eqb txt "organic" || String.eqb txt "variable" then None
    else Some txt.

(** A typed wrapper "rounds to the nearest whole unit and returns an
    integer": [got] is what the wrapper returns when the underlying
    extraction returned [reading].  A float reading gives an integer
    nearest to it, an integer reading (a dataset post-processed with
    round_int) is kept, [None] stays [None], and nothing else is ever
    returned. *)
Definition returns_rounded_int (reading got : result pyval) : Prop :=
  (reading = Ok VNone -> got = Ok VNone) /\
  (forall x, reading = Ok (VFloat x) -> float_is_finite x = true ->
     exists z, got = Ok (VInt z) /\ nearest_integer x z) /\
  (forall n, reading = Ok (VInt n) -> got = Ok (VInt n)) /\
  (forall r, got = Ok r -> r = VNone \/ exists z, r = VInt z).





(** The runtime [RT] with the descriptor of the dataset [name] replaced. *)
Definition with_config (RT : Runtime) (name : string) (cfg : config) : Runtime :=
  {| get_dataset_config := fun n =>
       if String.eqb n name then Ok cfg else @get_dataset_config RT n;
     TEXTURE_MAP := @TEXTURE_MAP RT;
     parse_geometry := @parse_geometry RT;
     getInfo := @getInfo RT;
     first := @first RT;
     round_ndigits := @round_ndigits RT;
     float_of_str := @float_of_str RT;
     runtime_str := @runtime_str RT;
     unicode_lower := @unicode_lower RT;
     unicode_lower_nonempty := @unicode_lower_nonempty RT |}.

(** "Texture extraction never lets an error of the remote query escape":
    whenever the soil_texture dataset is configured with a type,
    [get_texture] returns a value. *)
Definition texture_never_raises (RT : Runtime) : Prop :=
  ∀ cfg geometry year,
    get_dataset_config "soil_texture" = Ok cfg →
    is_Some (cfg !! "type") →
    ∃ value out, get_texture geometry year = (Ok value, out).

(* ===================================================================== *)
(** ** A sample runtime                                                   *)
(* ===================================================================== *)

(** Concrete settings and a concrete service to run the code on.  The
    dataset descriptors are illustrative (the repository's
    [config/settings.py] is not part of the development); the three
    texture ids are the ones the test-suite states. *)
Module Sample.

Definition rainfall : config :=
  {[ "asset_id" := VStr "UCSB-CHG/CHIRPS/DAILY"; "band" := VStr "precipitation";
     "scale" := VInt 5566; "reducer" := VStr "sum"; "temporal" := VBool true;
     "type" := VStr "raster"; "post_process" := VStr "round_int" ]}.

Definition temperature : config :=
  {[ "asset_id" := VStr "MODIS/061/MOD11A1"; "band" := VStr "LST_Day_1km";
     "scale" := VInt 1000; "reducer" := VStr "mean"; "temporal" := VBool true;
     "type" := VStr "raster"; "scale_factor" := VFloat 0.02;
     "offset" := VFloat (-273.15); "bias_correction" := VFloat (-4.43);
     "post_process" := VStr "round_1dp" ]}.

Definition elevation : config :=
  {[ "asset_id" := VStr "USGS/SRTMGL1_003"; "band" := VStr "elevation";
     "scale" := VInt 30; "reducer" := VStr "mean"; "temporal" := VBool false;
     "type" := VStr "raster" ]}.

Definition soil_ph : config :=
  {[ "asset_id" := VStr "OpenLandMap/SOL/SOL_PH-H2O_USDA-4C1A2A_M/v02";
     "band" := VStr "b0"; "scale" := VInt 250; "reducer" := VStr "mean";
     "temporal" := VBool false; "type" := VStr "raster";
     "scale_factor" := VFloat 0.1 ]}.

(** A vector-typed soil texture dataset. *)
Definition soil_texture_vector : config :=
  {[ "asset_id" := VStr "projects/sample/assets/soil_texture";
     "field" := VStr "texture"; "type" := VStr "vector";
     "scale_factor" := VInt 2; "offset" := VInt 100; "bias_correction" := VInt 7 ]}.

(** A vector dataset with a numeric field. *)
Definition soil_depth : config :=
  {[ "asset_id" := VStr "projects/sample/assets/soil_texture";
     "field" := VStr "depth"; "type" := VStr "vector";
     "scale_factor" := VInt 3; "offset" := VInt 100; "bias_correction" := VInt 7;
     "post_process" := VStr "round_int" ]}.

Definition datasets (soil_texture : config) : gmap string config :=
  {[ "rainfall" := rainfall; "temperature" := temperature; "elevation" := elevation;
     "soil_ph" := soil_ph; "soil_texture" := soil_texture; "dem" := elevation;
     "soil_depth" := soil_depth ]}.

Definition lookup_config (soil_texture : config) (name : string) : result config :=
  match datasets soil_texture !! name with
  | Some cfg => Ok cfg
  | None => Raise (ValueError ("Unknown dataset: " +:+ name))
  end.

Definition texture_map : gmap string Z :=
  {[ "sand" := 1; "loam" := 4; "clay" := 12 ]}.

(** Points and lists of coordinates parse; anything else is rejected. *)
Definition parse (raw : pyval) : result ee_obj :=
  match raw with
  | VList (_ :: _) => Ok (ee_Geometry raw)
  | _ => Raise (ValueError "Unsupported geometry format")
  end.

(** A service with fixed answers. *)
Definition service (obj : ee_obj) : result pyval :=
  match obj with
  | ee_get (ee_reduceRegion img _ _ _ _) _ =>
      match img with
      | ee_sum (ee_select (ee_filterDate _ _ _) _) => Ok (VFloat 1523.5)
      | ee_mean (ee_select (ee_filterDate _ _ _) _) => Ok (VFloat 15001.5)
      | ee_select (ee_Image _) (VStr "elevation") => Ok (VInt 57)
      | ee_select (ee_Image _) (VStr "b0") => Ok (VFloat 58)
      | ee_select (ee_Image _) (VStr "precipitation") => Ok (VFloat 4.25)
      | ee_Terrain_slope _ => Ok (VFloat 3.26)
      | _ => Ok VNone
      end
  | ee_get (ee_Feature (VDict props)) (VStr field) =>
      Ok (default VNone (items_lookup field props))
  | ee_coordinates (ee_centroid _ _) => Ok (VList [VFloat 125.57; VFloat (-8.55)])
  | ee_area _ _ => Ok (VFloat 12345.5)
  | _ => Raise (mkExn "EEException" "unsupported request")
  end.

(** A service that is down. *)
Definition service_down (obj : ee_obj) : result pyval :=
  Raise (mkExn "EEException" "service unreachable").

(** One feature covers every point; nothing else intersects. *)
Definition feature : ee_obj :=
  ee_Feature (VDict [("texture", VStr "Clay, Clay Loam"); ("depth", VFloat 1.5);
                     ("parent", VStr "Volcanic Ash")]).

Definition first_feature (collection : ee_obj) : result (option ee_obj) :=
  match collection with
  | ee_filterBounds (ee_FeatureCollection _) (ee_Geometry (VList [VFloat _; VFloat _])) =>
      Ok (Some feature)
  | ee_filterBounds (ee_FeatureCollection _) _ => Ok None
  | _ => Raise (mkExn "EEException" "unsupported request")
  end.

(** [round(x, n)] for [n <= 22]: the float nearest to [k / 10^n], where
    [k] is the integer nearest to the exact value of [|x| * 10^n] (ties to
    the even one).  [k] and [10^n] are floats exactly, so their quotient
    is correctly rounded; from [2^53] on [x] has no digit to drop. *)
Definition round_nd (x : float) (n : nat) : float :=
  match Prim2SF x with
  | S754_finite s m e =>
      let k := round_half_even (Z.pos m * 10 ^ Z.of_nat n) e in
      if (k <? 2 ^ 53) && (n <=? 22)%nat then
        let q := (SF2Prim (binary_normalize prec emax k 0 false) /
                  SF2Prim (binary_normalize prec emax (10 ^ Z.of_nat n) 0 false))%float in
        if s then (- q)%float else q
      else x
  | _ => x
  end.

(** Stand-ins for [float(s)] and [str(v)]; the sample service returns no
    numeric text and the examples print no float. *)
Definition parse_float (s : string) : result float :=
  Raise (ValueError ("could not convert string to float: '" +:+ s +:+ "'")).

Definition repr (v : pyval) : string := "<object>".

(** [s.lower()] for text of ASCII and Latin-1 characters: the capitals
    U+00C0..U+00DE other than U+00D7 are the bytes C3 80..C3 9E other than
    C3 97, and their small letters are 32 further. *)
Definition lower_latin1_byte (b : ascii) : ascii :=
  let n := N_of_ascii b in
  if ((128 <=? n) && (n <=? 158) && negb (n =? 151))%N then ascii_of_N (n + 32) else b.

Fixpoint lower_latin1 (s : string) : string :=
  match s with
  | EmptyString => EmptyString
  | String a r =>
      if (N_of_ascii a =? 195)%N then
        match r with
        | String b r2 => String a (String (lower_latin1_byte b) (lower_latin1 r2))
        | EmptyString => String a EmptyString
        end
      else String (to_lower a) (lower_latin1 r)
  end.

Definition lower_latin1_nonempty (s : string) :
  lower_latin1 s = EmptyString -> s = EmptyString.
Proof.
  destruct s as [|a r]; [reflexivity|]. simpl.
  destruct (N_of_ascii a =? 195)%N; [destruct r|]; discriminate.
Qed.

Definition runtime (soil_texture : config) (svc : ee_obj -> result pyval) : Runtime :=
  {| get_dataset_config := lookup_config soil_texture;
     TEXTURE_MAP := texture_map;
     parse_geometry := parse;
     getInfo := svc;
     first := first_feature;
     round_ndigits := round_nd;
     float_of_str := parse_float;
     runtime_str := repr;
     unicode_lower := lower_latin1;
     unicode_lower_nonempty := lower_latin1_nonempty |}.

(** Soil texture served by the raster proxy (the shipped configuration)
    and by a vector dataset. *)
Definition raster_world : Runtime := runtime soil_ph service.
Definition vector_world : Runtime := runtime soil_texture_vector service.
Definition vector_world_unmapped : Runtime :=
  runtime (<["field" := VStr "parent"]> soil_texture_vector) service.
Definition raster_world_down : Runtime := runtime soil_ph service_down.
Definition vector_world_down : Runtime := runtime soil_texture_vector service_down.

Definition point : pyval := VList [VFloat (-8.55); VFloat 125.57].
Definition polygon : pyval :=
  VList [VList [VFloat (-8.55); VFloat 125.57]; VList [VFloat (-8.55); VFloat 125.58];
         VList [VFloat (-8.56); VFloat 125.58]].

End Sample.

(* ===================================================================== *)
(** ** gis/utils/build_farm_geolocation.py: the geometry helpers          *)
(* ===================================================================== *)

(** The Shapely operations the two helpers call, on geometries of an
    abstract type: [shape(mapping(geom))], the [is_valid] property and
    [geom.buffer(0)].  Each may raise. *)
Class Shapely (geom : Type) : Type := {
  shape_of_mapping : geom -> result geom;
  is_valid : geom -> result bool;
  buffer0 : geom -> result geom
}.

Section Geolocation.
Context {geom : Type} `{SH : Shapely geom}.

Definition to_2d (g : geom) : result geom :=
  match shape_of_mapping g with
  | Ok g2 => Ok g2
  | Raise _ => Ok g
  end.

Definition fix_geometry (g : geom) : result geom :=
  match (valid ← is_valid g; if negb valid then buffer0 g else Ok g) with
  | Ok fixed => Ok fixed
  | Raise _ => buffer0 g
  end.

End Geolocation.

(* ===================================================================== *)
(** ** More sample settings                                               *)
(* ===================================================================== *)

Module Cases.

(** The temperature dataset asked to reduce with the median. *)
Definition temperature_median : config :=
  <["reducer" := VStr "median"]> Sample.temperature.

Definition median_world : Runtime :=
  with_config Sample.raster_world "temperature" temperature_median.

(** Descriptors with a key missing. *)
Definition rainfall_no_band : config := delete "band" Sample.rainfall.
Definition no_band_world : Runtime :=
  with_config Sample.raster_world "rainfall" rainfall_no_band.

(** No scale, and a list where the name of the reducer should be. *)
Definition rainfall_no_scale : config :=
  <["reducer" := VList []]> (delete "scale" Sample.rainfall).
Definition no_scale_world : Runtime :=
  with_config Sample.raster_world "rainfall" rainfall_no_scale.

(** Soil texture read from the numeric field of the sample feature; the
    descriptor asks for a scale factor of 3 and for round_int. *)
Definition depth_world : Runtime := Sample.runtime Sample.soil_depth Sample.service.

Definition texture_no_field : config := delete "field" Sample.soil_texture_vector.
Definition no_field_world : Runtime :=
  with_config Sample.vector_world "soil_texture" texture_no_field.

(** A service whose centroid has a single coordinate and whose area is
    missing. *)
Definition service_short (obj : ee_obj) : result pyval :=
  match obj with
  | ee_coordinates _ => Ok (VList [VFloat 125.57])
  | ee_area _ _ => Ok VNone
  | _ => Sample.service obj
  end.

Definition short_world : Runtime := Sample.runtime Sample.soil_ph service_short.

(** A service that has rainfall for every year but 2022. *)
Definition service_gap (obj : ee_obj) : result pyval :=
  match obj with
  | ee_get (ee_reduceRegion (ee_sum (ee_select (ee_filterDate _ start _) _)) _ _ _ _) _ =>
      if String.eqb start "2022-01-01"
      then Raise (mkExn "EEException" "no images for 2022")
      else Sample.service obj
  | _ => Sample.service obj
  end.

Definition gap_world : Runtime := Sample.runtime Sample.soil_ph service_gap.




(** Texts with characters beyond ASCII: "Clay" between a no-break space
    (U+00A0) and a next-line character (U+0085), and "ÉCLAT, Loam" after
    an ideographic space (U+3000). *)
Definition clay_nbsp : string :=
  String (ascii_of_N 194) (String (ascii_of_N 160)
    ("Clay" +:+ String (ascii_of_N 194) (String (ascii_of_N 133) EmptyString))).

Definition eclat_wide : string :=
  String (ascii_of_N 227) (String (ascii_of_N 128) (String (ascii_of_N 128)
    (String (ascii_of_N 195) (String (ascii_of_N 137) "CLAT , Loam")))).

Definition eclat_small : string :=
  String (ascii_of_N 195) (String (ascii_of_N 169) "clat").

(** Geometries as numbers: the odd ones are invalid, [buffer(0)] repairs
    by rounding up to the next even one, and the conversion to 2D fails
    on negative ones. *)
#[local] Instance parity_shapely : Shapely Z := {|
  shape_of_mapping g :=
    if g <? 0 then Raise (ValueError "cannot convert") else Ok g;
  is_valid g := Ok (Z.even g);
  buffer0 g := Ok (if Z.even g then g else g + 1)
|}.

Definition parity : Shapely Z := parity_shapely.

End Cases.

(* ===================================================================== *)
(** ** Strings: lemmas                                                    *)
(* ===================================================================== *)

Lemma is_space_to_lower (c : ascii) : is_space (to_lower c) = is_space c.
Proof. destruct c as [[] [] [] [] [] [] [] []]; reflexivity. Qed.

Lemma str_lower_empty (s : string) : str_lower s = EmptyString -> s = EmptyString.
Proof. destruct s; [reflexivity | discriminate]. Qed.

Lemma str_lower_lstrip (s : string) :
  str_lower (str_lstrip s) = str_lstrip (str_lower s).
Proof.
  induction s as [|c s IH]; simpl; [reflexivity|].
  rewrite is_space_to_lower.
  destruct (is_space c); [exact IH | reflexivity].
Qed.

Lemma str_lower_rstrip (s : string) :
  str_lower (str_rstrip s) = str_rstrip (str_lower s).
Proof.
  induction s as [|c s IH]; simpl; [reflexivity|].
  rewrite <- IH, is_space_to_lower.
  destruct (str_rstrip s) as [|d t] eqn:E; simpl.
  - destruct (is_space c); reflexivity.
  - reflexivity.
Qed.

(** Trimming and lower-casing commute. *)
Lemma str_lower_strip (s : string) :
  str_lower (str_strip s) = str_strip (str_lower s).
Proof. unfold str_strip. now rewrite str_lower_rstrip, str_lower_lstrip. Qed.

Lemma in_organic_variable (s : string) :
  bool_decide (s ∈ ["organic"; "variable"]) =
  String.eqb s "organic" || String.eqb s "variable".
Proof.
  destruct (String.eqb_spec s "organic") as [->|H1]; [reflexivity|].
  destruct (String.eqb_spec s "variable") as [->|H2]; [reflexivity|].
  apply bool_decide_eq_false. intros Hin.
  apply elem_of_cons in Hin as [?|Hin]; [congruence|].
  apply elem_of_cons in Hin as [?|Hin]; [congruence|].
  by apply elem_of_nil in Hin.
Qed.

(** *** Text beyond ASCII *)

Lemma ascii_not_ws2 (a b : ascii) : (N_of_ascii a <? 128)%N = true -> ws2 a b = false.
Proof.
  intros Ha. unfold ws2.
  destruct (N.eqb_spec (N_of_ascii a) 194) as [E|]; [|reflexivity].
  rewrite E in Ha. discriminate.
Qed.

Lemma ascii_not_ws3 (a b c : ascii) : (N_of_ascii a <? 128)%N = true -> ws3 a b c = false.
Proof.
  intros Ha. unfold ws3.
  destruct (N.eqb_spec (N_of_ascii a) 225) as [E|]; [rewrite E in Ha; discriminate|].
  destruct (N.eqb_spec (N_of_ascii a) 226) as [E|]; [rewrite E in Ha; discriminate|].
  destruct (N.eqb_spec (N_of_ascii a) 227) as [E|]; [rewrite E in Ha; discriminate|].
  reflexivity.
Qed.

(** On ASCII text [strip] removes the ASCII whitespace only. *)
Lemma py_lstrip_ascii (s : string) : str_is_ascii s = true -> py_lstrip s = str_lstrip s.
Proof.
  induction s as [|a r IH]; [reflexivity|].
  intros Hs. simpl in Hs. apply andb_prop in Hs as [Ha Hr].
  simpl. destruct (is_space a); [now apply IH|].
  destruct r as [|b r2]; [reflexivity|]. rewrite (ascii_not_ws2 a b Ha).
  destruct r2 as [|c r3]; [reflexivity|]. now rewrite (ascii_not_ws3 a b c Ha).
Qed.

Lemma str_rstrip_nil (s : string) :
  str_rstrip s = EmptyString <-> str_lstrip s = EmptyString.
Proof.
  induction s as [|a r IH]; simpl; [tauto|].
  destruct (is_space a).
  - rewrite <- IH. destruct (str_rstrip r); [tauto | split; discriminate].
  - destruct (str_rstrip r); split; discriminate.
Qed.

Lemma py_rstrip_ascii (s : string) : str_is_ascii s = true -> py_rstrip s = str_rstrip s.
Proof.
  induction s as [|a r IH]; [reflexivity|].
  intros Hs. pose proof Hs as Hsr. simpl in Hsr. apply andb_prop in Hsr as [Ha Hr].
  change (py_rstrip (String a r))
    with (if all_space (String a r) then EmptyString else String a (py_rstrip r)).
  unfold all_space. rewrite (py_lstrip_ascii _ Hs), (IH Hr). simpl.
  destruct (is_space a).
  - destruct (str_lstrip r) as [|d t] eqn:Hl.
    + apply str_rstrip_nil in Hl. now rewrite Hl.
    + simpl. destruct (str_rstrip r) eqn:Hrr; [|reflexivity].
      apply str_rstrip_nil in Hrr. congruence.
  - simpl. now destruct (str_rstrip r).
Qed.

Lemma to_lower_ascii (c : ascii) :
  (N_of_ascii (to_lower c) <? 128)%N = (N_of_ascii c <? 128)%N.
Proof. destruct c as [[] [] [] [] [] [] [] []]; reflexivity. Qed.

Lemma str_lower_ascii (s : string) : str_is_ascii (str_lower s) = str_is_ascii s.
Proof. induction s as [|c s IH]; simpl; [reflexivity | now rewrite to_lower_ascii, IH]. Qed.

Lemma str_lstrip_ascii (s : string) :
  str_is_ascii s = true -> str_is_ascii (str_lstrip s) = true.
Proof.
  induction s as [|a r IH]; simpl; [reflexivity|].
  intros Hs. destruct (is_space a); [|exact Hs].
  apply andb_prop in Hs as [_ Hr]. now apply IH.
Qed.

Lemma str_rstrip_ascii (s : string) :
  str_is_ascii s = true -> str_is_ascii (str_rstrip s) = true.
Proof.
  induction s as [|a r IH]; simpl; [reflexivity|].
  intros Hs. apply andb_prop in Hs as [Ha Hr]. specialize (IH Hr).
  destruct (str_rstrip r) as [|d t].
  - destruct (is_space a); simpl; [reflexivity | now rewrite Ha].
  - change (str_is_ascii (String a (String d t)))
      with ((N_of_ascii a <? 128)%N && str_is_ascii (String d t)).
    now rewrite Ha, IH.
Qed.

Lemma str_strip_ascii (s : string) :
  str_is_ascii s = true -> str_is_ascii (str_strip s) = true.
Proof. intros Hs. unfold str_strip. now apply str_rstrip_ascii, str_lstrip_ascii. Qed.

Lemma py_strip_ascii (s : string) : str_is_ascii s = true -> py_strip s = str_strip s.
Proof.
  intros Hs. unfold py_strip, str_strip.
  rewrite (py_lstrip_ascii s Hs). now apply py_rstrip_ascii, str_lstrip_ascii.
Qed.

Lemma py_lower_ascii `{Runtime} (s : string) :
  str_is_ascii s = true -> py_lower s = str_lower s.
Proof. intros Hs. unfold py_lower. now rewrite Hs. Qed.

(** On ASCII text trimming and lower-casing commute. *)
Lemma py_lower_strip `{Runtime} (s : string) :
  str_is_ascii s = true -> py_strip (py_lower s) = py_lower (py_strip s).
Proof.
  intros Hs.
  rewrite (py_lower_ascii s Hs), (py_strip_ascii s Hs).
  rewrite (py_lower_ascii _ (str_strip_ascii s Hs)).
  rewrite py_strip_ascii by now rewrite str_lower_ascii.
  symmetry. apply str_lower_strip.
Qed.

(** Lower-casing leaves no text empty. *)
Lemma py_lower_empty `{Runtime} (s : string) : py_lower s = EmptyString -> s = EmptyString.
Proof.
  unfold py_lower. destruct (str_is_ascii s).
  - apply str_lower_empty.
  - apply unicode_lower_nonempty.
Qed.

(** The code and the specification's wording compute the same name. *)
Lemma normalize_texture_name_spec `{Runtime} (value : pyval) :
  _normalize_texture_name value = normalize_spec value.
Proof.
  unfold _normalize_texture_name, normalize_spec.
  destruct value; simpl is_None; cbv iota; try reflexivity;
    match goal with
    | |- context [py_strip ?t] => destruct (py_strip t) as [|a r] eqn:E
    end; try reflexivity;
    (destruct (py_lower (String a r)) as [|a' r'] eqn:Hlow;
       [apply py_lower_empty in Hlow; discriminate|]);
    simpl str_is_empty; cbv iota; rewrite in_organic_variable; reflexivity.
Qed.

(** Text that is empty once trimmed has no name. *)
Lemma normalize_blank `{Runtime} (value : pyval) :
  py_strip (py_str value) = EmptyString -> _normalize_texture_name value = None.
Proof.
  intros Hblank. unfold _normalize_texture_name. rewrite Hblank.
  now destruct (is_None value).
Qed.

(** Trimming adds no character, and the text before the first comma has
    no comma: a normalized name never contains one. *)
Lemma str_contains_lstrip (c : ascii) (s : string) :
  str_contains c s = false -> str_contains c (str_lstrip s) = false.
Proof.
  induction s as [|a s IH]; simpl; [reflexivity|].
  intros Hc. apply orb_false_elim in Hc as [Ha Hs].
  destruct (is_space a); [now apply IH | simpl; now rewrite Ha, Hs].
Qed.

Lemma str_contains_rstrip (c : ascii) (s : string) :
  str_contains c s = false -> str_contains c (str_rstrip s) = false.
Proof.
  induction s as [|a s IH]; simpl; [reflexivity|].
  intros Hc. apply orb_false_elim in Hc as [Ha Hs]. specialize (IH Hs).
  destruct (str_rstrip s) as [|d t].
  - destruct (is_space a); simpl; [reflexivity | now rewrite Ha].
  - change (str_contains c (String a (String d t)))
      with (Ascii.eqb a c || str_contains c (String d t)).
    now rewrite Ha, IH.
Qed.

Lemma str_contains_strip (c : ascii) (s : string) :
  str_contains c s = false -> str_contains c (str_strip s) = false.
Proof. intros Hc. unfold str_strip. now apply str_contains_rstrip, str_contains_lstrip. Qed.

Lemma str_split_head_no_sep (sep : ascii) (s : string) :
  str_contains sep (str_split_head sep s) = false.
Proof.
  induction s as [|a s IH]; simpl; [reflexivity|].
  destruct (Ascii.eqb a sep) eqn:Ha; simpl; [reflexivity | now rewrite Ha, IH].
Qed.

Lemma str_length_app (s t : string) :
  String.length (s +:+ t) = (String.length s + String.length t)%nat.
Proof. induction s as [|c s IH]; simpl; [reflexivity | now rewrite IH]. Qed.

Lemma str_contains_append (c : ascii) (p r : string) :
  str_contains c (p +:+ r) = str_contains c p || str_contains c r.
Proof.
  induction p as [|a p IH]; simpl; [reflexivity|].
  now rewrite IH, orb_assoc.
Qed.

Lemma str_app_nil_r (s : string) : s +:+ EmptyString = s.
Proof.
  induction s as [|c s IH]; [reflexivity|].
  change (String c (s +:+ EmptyString) = String c s). now rewrite IH.
Qed.

Lemma str_app_assoc (s t u : string) : (s +:+ t) +:+ u = s +:+ (t +:+ u).
Proof.
  induction s as [|c s IH]; [reflexivity|].
  change (String c ((s +:+ t) +:+ u) = String c (s +:+ (t +:+ u))). now rewrite IH.
Qed.

(** [lstrip] either leaves the text alone or drops a whitespace character
    from its head, whatever follows the text. *)
Lemma py_lstrip_step_app (s : string) :
  py_lstrip s = s \/
  exists p r, s = p +:+ r /\ p <> EmptyString /\
    forall x, py_lstrip (p +:+ (r +:+ x)) = py_lstrip (r +:+ x).
Proof.
  destruct s as [|a r]; [now left|]. simpl.
  destruct (is_space a) eqn:Ha.
  { right. exists (String a EmptyString), r. repeat split; [discriminate|].
    intros x. simpl. now rewrite Ha. }
  destruct r as [|b r2]; [now left|].
  destruct (ws2 a b) eqn:Hb.
  { right. exists (String a (String b EmptyString)), r2. repeat split; [discriminate|].
    intros x. simpl. now rewrite Ha, Hb. }
  destruct r2 as [|c r3]; [now left|].
  destruct (ws3 a b c) eqn:Hc; [|now left].
  right. exists (String a (String b (String c EmptyString))), r3.
  repeat split; [discriminate|].
  intros x. simpl. now rewrite Ha, Hb, Hc.
Qed.

(** What holds of a text and of its tails holds of the text trimmed on
    the left. *)
Lemma py_lstrip_tail (P : string -> Prop) :
  (forall p r, P (p +:+ r) -> P r) ->
  forall s, P s -> P (py_lstrip s).
Proof.
  intros Htail s.
  remember (String.length s) as n eqn:Hn. revert s Hn.
  induction n as [n IH] using lt_wf_ind. intros s -> Hs.
  destruct (py_lstrip_step_app s) as [->|(p & r & Heq & Hp & Hx)]; [exact Hs|].
  specialize (Hx EmptyString). rewrite str_app_nil_r in Hx.
  subst s. rewrite Hx.
  apply (IH (String.length r)); [|reflexivity|now apply (Htail p)].
  rewrite str_length_app. destruct p; [contradiction | simpl; lia].
Qed.

Lemma str_contains_py_lstrip (c : ascii) (s : string) :
  str_contains c s = false -> str_contains c (py_lstrip s) = false.
Proof.
  apply (py_lstrip_tail (fun t => str_contains c t = false)).
  intros p r Hc. rewrite str_contains_append in Hc.
  now apply orb_false_elim in Hc as [_ Hr].
Qed.

Lemma str_contains_py_rstrip (c : ascii) (s : string) :
  str_contains c s = false -> str_contains c (py_rstrip s) = false.
Proof.
  induction s as [|a r IH]; [reflexivity|].
  intros Hc.
  change (py_rstrip (String a r))
    with (if all_space (String a r) then EmptyString else String a (py_rstrip r)).
  destruct (all_space (String a r)); [reflexivity|].
  simpl in *. apply orb_false_elim in Hc as [Ha Hr]. now rewrite Ha, IH.
Qed.

Lemma str_contains_py_strip (c : ascii) (s : string) :
  str_contains c s = false -> str_contains c (py_strip s) = false.
Proof.
  intros Hc. unfold py_strip. now apply str_contains_py_rstrip, str_contains_py_lstrip.
Qed.

Lemma normalize_no_comma `{Runtime} (value : pyval) (name : string) :
  _normalize_texture_name value = Some name -> str_contains comma name = false.
Proof.
  unfold _normalize_texture_name.
  destruct (is_None value); [discriminate|].
  set (txt := py_lower (py_strip (py_str value))).
  destruct (str_is_empty txt); [discriminate|].
  destruct (str_contains comma txt) eqn:Hc.
  - destruct (_ || _); [discriminate|]. intros [= <-].
    apply str_contains_py_strip, str_split_head_no_sep.
  - destruct (_ || _); [discriminate|]. intros [= <-]. exact Hc.
Qed.

(** C4. [_normalize_texture_name] returns [None] for [None] and for text
    that is empty after trimming; otherwise it lower-cases and trims the
    text (in either order, for ASCII text), keeps only the trimmed text
    before the first comma when there is one, and maps the tokens
    "organic" and "variable" to [None].  In particular: "Clay, Clay Loam"
    gives "clay", "  Sandy Loam  " gives "sandy loam", "Organic" gives
    [None], [None] gives [None] and the empty string gives [None].
    Trimming removes the whitespace beyond ASCII as well: "Clay" between
    a no-break space and a next-line character gives "clay". *)
Theorem C4_normalize_texture_name `{Runtime} :
  (forall value : pyval, _normalize_texture_name value = normalize_spec value) /\
  (forall value : pyval,
     py_strip (py_str value) = "" -> _normalize_texture_name value = None) /\
  (forall s : string,
     str_is_ascii s = true -> py_strip (py_lower s) = py_lower (py_strip s)) /\
  _normalize_texture_name (VStr "Clay, Clay Loam") = Some "clay" /\
  _normalize_texture_name (VStr "  Sandy Loam  ") = Some "sandy loam" /\
  _normalize_texture_name (VStr "Organic") = None /\
  _normalize_texture_name (VStr "Variable") = None /\
  _normalize_texture_name VNone = None /\
  _normalize_texture_name (VStr "") = None /\
  _normalize_texture_name (VStr Cases.clay_nbsp) = Some "clay" /\
  @_normalize_texture_name Sample.raster_world (VStr Cases.eclat_wide)
    = Some Cases.eclat_small.
Proof.
  split; [exact normalize_texture_name_spec|].
  split; [exact normalize_blank|].
  split; [exact py_lower_strip|].
  repeat split; reflexivity.
Qed.

(* ===================================================================== *)
(** ** Rounding: lemmas                                                   *)
(* ===================================================================== *)

(** [round_half_even m e] is within a half of [m * 2^e]. *)
Lemma round_half_even_nearest (m e : Z) :
  0 <= m ->
  2 * Z.abs (round_half_even m e * 2 ^ Z.max 0 (- e) - m * 2 ^ Z.max 0 e)
    <= 2 ^ Z.max 0 (- e).
Proof.
  intros Hm. unfold round_half_even.
  destruct (Z.leb_spec 0 e) as [He|He].
  - rewrite (Z.max_l 0 (- e)), (Z.max_r 0 e) by lia.
    change (2 ^ 0) with 1. rewrite Z.mul_1_r, Z.sub_diag. simpl. lia.
  - rewrite (Z.max_r 0 (- e)), (Z.max_l 0 e) by lia.
    change (2 ^ 0) with 1. rewrite Z.mul_1_r.
    set (d := 2 ^ (- e)).
    assert (Hd : 0 < d) by (apply Z.pow_pos_nonneg; lia).
    pose proof (Z.div_mod m d ltac:(lia)) as Hdm.
    pose proof (Z.mod_pos_bound m d Hd) as Hr.
    set (q := m / d) in *. set (r := m mod d) in *.
    destruct (Z.ltb_spec (2 * r) d) as [H1|H1].
    + replace (q * d - m) with (- r) by lia. lia.
    + destruct (Z.ltb_spec d (2 * r)) as [H2|H2].
      * replace ((q + 1) * d - m) with (d - r) by lia. lia.
      * destruct (Z.even q).
        -- replace (q * d - m) with (- r) by lia. lia.
        -- replace ((q + 1) * d - m) with (d - r) by lia. lia.
Qed.

(** What [round(x)] returns is an integer nearest to [x]. *)
Lemma float_round_nearest (x : float) (n : Z) :
  float_round x = Ok n -> nearest_integer x n.
Proof.
  unfold float_round, nearest_integer.
  destruct (Prim2SF x) as [s|s| |s m e]; try discriminate.
  - intros [= <-]. reflexivity.
  - intros [= <-].
    pose proof (round_half_even_nearest (Z.pos m) e ltac:(lia)) as Hn.
    destruct s; [|exact Hn].
    replace (- round_half_even (Z.pos m) e * 2 ^ Z.max 0 (- e)
             - Z.neg m * 2 ^ Z.max 0 e)
      with (- (round_half_even (Z.pos m) e * 2 ^ Z.max 0 (- e)
               - Z.pos m * 2 ^ Z.max 0 e)) by lia.
    rewrite Z.abs_opp. exact Hn.
Qed.

(** [round(x)] succeeds exactly on the finite floats. *)
Lemma float_round_finite (x : float) :
  float_is_finite x = true <-> exists n, float_round x = Ok n.
Proof.
  unfold float_is_finite, float_round.
  destruct (Prim2SF x); split; intros Hx;
    try discriminate; try (eexists; reflexivity); try reflexivity;
    destruct Hx as [n Hn]; discriminate.
Qed.

(* ===================================================================== *)
(** ** Raster extraction                                                  *)
(* ===================================================================== *)

Lemma bind_Ok {A B : Type} (a : A) (k : A -> result B) : (Ok a ≫= k) = k a.
Proof. reflexivity. Qed.

Lemma bind_Raise {A B : Type} (e : exn) (k : A -> result B) : (Raise e ≫= k) = Raise e.
Proof. reflexivity. Qed.

(** What each post_process rule does to a float; any other rule leaves
    the value as it is, and [None] stays [None]. *)
Lemma apply_post_process_rules `{Runtime} (x : float) :
  _apply_post_process (VFloat x) (VStr "round_int") = (z ← float_round x; Ok (VInt z)) /\
  _apply_post_process (VFloat x) (VStr "round_1dp") = Ok (VFloat (round_ndigits x 1)) /\
  _apply_post_process (VFloat x) (VStr "round_2dp") = Ok (VFloat (round_ndigits x 2)) /\
  _apply_post_process (VFloat x) (VStr "round_3dp") = Ok (VFloat (round_ndigits x 3)) /\
  (forall rule,
     rule ∉ ["round_int"; "round_1dp"; "round_2dp"; "round_3dp"] ->
     _apply_post_process (VFloat x) (VStr rule) = Ok (VFloat x)) /\
  (forall rule, _apply_post_process VNone rule = Ok VNone).
Proof.
  repeat split; try reflexivity.
  intros rule Hrule. unfold _apply_post_process. simpl.
  repeat match goal with
  | |- context [String.eqb rule ?r] =>
      destruct (String.eqb_spec rule r) as [->|_];
        [exfalso; apply Hrule; set_solver|]
  end.
  reflexivity.
Qed.

Lemma roundings_unknown (s : string) :
  s ∉ ["round_int"; "round_1dp"; "round_2dp"; "round_3dp"] -> roundings !! s = None.
Proof.
  intros Hs. unfold roundings.
  repeat (rewrite lookup_insert_ne by (intros <-; apply Hs; set_solver)).
  apply lookup_singleton_ne. intros <-. apply Hs. set_solver.
Qed.

(** The chain of comparisons of [_apply_post_process] is the table of
    roundings: a rule that names a rounding rounds, any other rule leaves
    the number as it is. *)
Lemma apply_post_process_spec `{Runtime} (y : float) (rule : pyval) :
  _apply_post_process (VFloat y) rule =
    match rounding_of rule with
    | Some r => round_to r y
    | None => Ok (VFloat y)
    end.
Proof.
  destruct rule as [| | | |s| |]; try reflexivity.
  unfold _apply_post_process, rounding_of. simpl is_None. cbv iota. simpl py_eq_str.
  destruct (String.eqb_spec s "round_int") as [->|H1].
  { change (roundings !! "round_int") with (Some ToInteger).
    simpl. unfold float_round. now destruct (Prim2SF y). }
  destruct (String.eqb_spec s "round_1dp") as [->|H2]; [reflexivity|].
  destruct (String.eqb_spec s "round_2dp") as [->|H3]; [reflexivity|].
  destruct (String.eqb_spec s "round_3dp") as [->|H4]; [reflexivity|].
  rewrite roundings_unknown; [reflexivity|].
  intros Hin. repeat (apply elem_of_cons in Hin as [?|Hin]; [congruence|]).
  by apply elem_of_nil in Hin.
Qed.

Lemma post_process_if_present_spec `{Runtime} (cfg : config) (y : float) :
  post_process_if_present cfg y =
    match cfg !! "post_process" ≫= rounding_of with
    | Some r => round_to r y
    | None => Ok (VFloat y)
    end.
Proof.
  unfold post_process_if_present.
  destruct (cfg !! "post_process") as [rule|]; [|reflexivity].
  apply apply_post_process_spec.
Qed.

(** The transformations of the raster path are the raster pipeline of the
    specification followed by the rounding of the post_process rule. *)
Lemma raster_transformations_spec `{Runtime} (cfg : config) (x : float) :
  raster_transformations cfg (Some x) = spec_transform (raster_pipeline cfg) cfg x.
Proof.
  unfold raster_transformations, spec_transform, raster_pipeline,
    scale_if_present, add_if_present.
  destruct (cfg !! "scale_factor") as [sf|]; simpl;
    [destruct (float_mul x sf) as [x1|]; simpl; [|reflexivity] | set (x1 := x)];
    (destruct (cfg !! "offset") as [off|]; simpl;
      [destruct (float_add x1 off) as [x2|]; simpl; [|reflexivity] | set (x2 := x1)]);
    (destruct (cfg !! "bias_correction") as [bias|]; simpl;
      [destruct (float_add x2 bias) as [x3|]; simpl; [|reflexivity] |]);
    apply post_process_if_present_spec.
Qed.


(** How [_extract_from_raster] splits into its three blocks once the
    configuration and the geometry are resolved. *)
Lemma extract_from_raster_blocks `{Runtime}
    (geometry : pyval) (name : string) (year : option Z)
    (cfg : config) (geom img : ee_obj) (band : pyval) :
  get_dataset_config name = Ok cfg ->
  parse_geometry geometry = Ok geom ->
  load_dataset cfg year = Ok (img, band) ->
  _extract_from_raster geometry name year =
    (value ← reduce_region cfg geom img band; raster_transformations cfg value).
Proof.
  intros Hcfg Hgeom Himg. unfold _extract_from_raster.
  rewrite Hcfg, bind_Ok, Hgeom, bind_Ok, Himg, bind_Ok. reflexivity.
Qed.



(** A [None] reading: the sample service has no single temperature
    image, and the result is [None] although the configuration has a
    scale_factor, an offset, a bias_correction and a post_process rule. *)
Example raster_none_reading :
  @_extract_from_raster Sample.raster_world Sample.point "temperature" None = Ok VNone.
Proof. reflexivity. Qed.

(** The order is observable on binary64 numbers: adding bias_correction
    before offset gives another float for the sample temperature
    reading. *)
Example transform_order_observable :
  run_transforms
    [Multiply (VFloat 0.02); AddTo (VFloat (-273.15)); AddTo (VFloat (-4.43))] 15001.5%float
  <> run_transforms
    [Multiply (VFloat 0.02); AddTo (VFloat (-4.43)); AddTo (VFloat (-273.15))] 15001.5%float.
Proof.
  intros Heq.
  apply (f_equal (fun r => match r with Ok x => Prim2SF x | Raise _ => S754_nan end)) in Heq.
  vm_compute in Heq. discriminate Heq.
Qed.

(** [_extract_from_raster] returns [None], a float or (after round_int)
    an int. *)
Lemma post_process_kinds `{Runtime} (cfg : config) (x : float) (v : pyval) :
  post_process_if_present cfg x = Ok v ->
  (exists y, v = VFloat y) \/ (exists z, v = VInt z).
Proof.
  unfold post_process_if_present, _apply_post_process.
  destruct (cfg !! "post_process") as [pp|]; simpl.
  - destruct (py_eq_str pp "round_int").
    + destruct (float_round x) as [z|e]; simpl; [|discriminate].
      intros [= <-]. right. eauto.
    + destruct (py_eq_str pp "round_1dp"); [intros [= <-]; left; eauto|].
      destruct (py_eq_str pp "round_2dp"); [intros [= <-]; left; eauto|].
      destruct (py_eq_str pp "round_3dp"); intros [= <-]; left; eauto.
  - intros [= <-]. left. eauto.
Qed.

Lemma extract_from_raster_kinds `{Runtime}
    (geometry : pyval) (name : string) (year : option Z) (v : pyval) :
  _extract_from_raster geometry name year = Ok v ->
  v = VNone \/ (exists y, v = VFloat y) \/ (exists z, v = VInt z).
Proof.
  unfold _extract_from_raster.
  destruct (get_dataset_config name) as [cfg|e]; simpl; [|discriminate].
  destruct (parse_geometry geometry) as [geom|e]; simpl; [|discriminate].
  destruct (load_dataset cfg year) as [[img band]|e]; simpl; [|discriminate].
  destruct (reduce_region cfg geom img band) as [[x|]|e]; simpl; try discriminate.
  - unfold raster_transformations.
    destruct (scale_if_present cfg "scale_factor" x) as [x1|e]; simpl; [|discriminate].
    destruct (add_if_present cfg "offset" x1) as [x2|e]; simpl; [|discriminate].
    destruct (add_if_present cfg "bias_correction" x2) as [x3|e]; simpl; [|discriminate].
    intros Hv. right. now apply (post_process_kinds cfg x3).
  - intros [= <-]. now left.
Qed.

(** The code's choice between [sum] and [mean] is [collapse]. *)
Lemma collapse_code (cfg : config) (collection : ee_obj) :
  (if py_eq_str (dict_get cfg "reducer" (VStr "mean")) "sum"
   then ee_sum collection else ee_mean collection) = collapse cfg collection.
Proof.
  unfold collapse, dict_get. destruct (cfg !! "reducer") as [[]|]; reflexivity.
Qed.

(** Every configured reducer other than "sum" averages the collection. *)
Lemma collapse_not_sum (cfg : config) (r : pyval) (collection : ee_obj) :
  cfg !! "reducer" = Some r -> r <> VStr "sum" ->
  collapse cfg collection = ee_mean collection.
Proof.
  intros Hr Hne. unfold collapse. rewrite Hr.
  destruct r as [| | | |s| |]; try reflexivity.
  destruct (String.eqb_spec s "sum") as [->|]; [congruence | reflexivity].
Qed.

Lemma collapse_sum (cfg : config) (collection : ee_obj) :
  cfg !! "reducer" = Some (VStr "sum") -> collapse cfg collection = ee_sum collection.
Proof. intros Hr. unfold collapse. now rewrite Hr. Qed.

(** The image [load_dataset] builds. *)
Lemma load_dataset_image (cfg : config) (year : option Z) (asset_id band : pyval) :
  cfg !! "asset_id" = Some asset_id ->
  cfg !! "band" = Some band ->
  load_dataset cfg year = Ok (loaded_image cfg asset_id band year, band).
Proof.
  intros Ha Hb. unfold load_dataset, loaded_image, getitem, is_temporal.
  rewrite Ha, Hb. simpl. rewrite collapse_code.
  destruct year as [y|]; simpl; [|reflexivity].
  destruct (y =? 0); simpl.
  - rewrite andb_false_r. reflexivity.
  - rewrite andb_true_r.
    destruct (py_truthy (dict_get cfg "temporal" (VBool false))); reflexivity.
Qed.

(** C2, as the code has it.  For a raster dataset with temporal = true and
    a supplied year other than 0, [_extract_from_raster] reduces the
    collection restricted to that calendar year, band selected, collapsed
    with sum when the configured reducer is "sum" and with mean for every
    other configured reducer (median, min and max included); when temporal
    is false, no year is supplied or the year is 0, it reduces the single
    non-temporal image of the band. *)
Theorem C2_temporal_image `{Runtime}
    (geometry : pyval) (name : string) (year : option Z)
    (cfg : config) (geom : ee_obj) (asset_id band : pyval) :
  get_dataset_config name = Ok cfg ->
  parse_geometry geometry = Ok geom ->
  cfg !! "asset_id" = Some asset_id ->
  cfg !! "band" = Some band ->
  let img := loaded_image cfg asset_id band year in
  _extract_from_raster geometry name year =
    (value ← reduce_region cfg geom img band; raster_transformations cfg value) /\
  (year <> Some 0 -> img = claimed_image cfg asset_id band year) /\
  (year = Some 0 -> img = single_image asset_id band) /\
  (forall collection,
     cfg !! "reducer" = Some (VStr "sum") -> collapse cfg collection = ee_sum collection) /\
  (forall collection r,
     cfg !! "reducer" = Some r -> r <> VStr "sum" ->
     collapse cfg collection = ee_mean collection).
Proof.
  intros Hcfg Hgeom Ha Hb img. repeat split.
  - apply (extract_from_raster_blocks _ _ _ _ _ _ _ Hcfg Hgeom).
    apply load_dataset_image; assumption.
  - intros Hy. subst img. unfold loaded_image, claimed_image.
    destruct year as [y|]; [|reflexivity].
    destruct (Z.eqb_spec y 0) as [->|_]; [congruence|].
    simpl. now rewrite andb_true_r.
  - intros ->. subst img. unfold loaded_image. simpl. now rewrite andb_false_r.
  - intros collection Hr. now apply collapse_sum.
  - intros collection r Hr Hne. now apply collapse_not_sum with r.
Qed.

Lemma C2_temporal_image_witness :
  @_extract_from_raster Sample.raster_world Sample.point "rainfall" (Some 2024) =
    (value ← @reduce_region Sample.raster_world Sample.rainfall (ee_Geometry Sample.point)
               (ee_sum (yearly_collection (VStr "UCSB-CHG/CHIRPS/DAILY")
                          (VStr "precipitation") 2024))
               (VStr "precipitation");
     @raster_transformations Sample.raster_world Sample.rainfall value).
Proof.
  apply (@C2_temporal_image Sample.raster_world Sample.point "rainfall" (Some 2024)
           Sample.rainfall (ee_Geometry Sample.point)
           (VStr "UCSB-CHG/CHIRPS/DAILY") (VStr "precipitation"));
    reflexivity.
Defined.

(** C2 as the specification states it fails for the supplied year 0: the
    rainfall dataset is temporal, yet [load_dataset] does not build the
    collection of the year 0 but the single image. *)
Lemma C2_year_zero_counterexample :
  is_temporal Sample.rainfall = true /\
  load_dataset Sample.rainfall (Some 0) <>
    Ok (claimed_image Sample.rainfall (VStr "UCSB-CHG/CHIRPS/DAILY")
          (VStr "precipitation") (Some 0), VStr "precipitation") /\
  load_dataset Sample.rainfall (Some 0) =
    Ok (single_image (VStr "UCSB-CHG/CHIRPS/DAILY") (VStr "precipitation"),
        VStr "precipitation").
Proof.
  split; [reflexivity|]. split; [|reflexivity].
  vm_compute. discriminate.
Qed.

(** On the sample service the two images give different readings. *)
Example year_zero_reading :
  @_extract_from_raster Sample.raster_world Sample.point "rainfall" (Some 0)
    = Ok (VInt 4) /\
  @_extract_from_raster Sample.raster_world Sample.point "rainfall" (Some 2024)
    = Ok (VInt 1524).
Proof. split; reflexivity. Qed.

(* ===================================================================== *)
(** ** Vector extraction                                                  *)
(* ===================================================================== *)





(* ===================================================================== *)
(** ** Soil texture                                                       *)
(* ===================================================================== *)

(** How [get_texture] dispatches on the configured type. *)
Lemma get_texture_raster `{Runtime}
    (geometry : pyval) (year : option Z) (cfg : config) (type : pyval) :
  get_dataset_config "soil_texture" = Ok cfg ->
  cfg !! "type" = Some type ->
  py_eq_str type "raster" = true ->
  get_texture geometry year = (_extract_from_raster geometry "soil_texture" year, []).
Proof.
  intros Hcfg Hty Hr. unfold get_texture, getitem. now rewrite Hcfg, Hty, Hr.
Qed.

Lemma get_texture_vector `{Runtime}
    (geometry : pyval) (year : option Z) (cfg : config) (type : pyval) :
  get_dataset_config "soil_texture" = Ok cfg ->
  cfg !! "type" = Some type ->
  py_eq_str type "raster" = false ->
  get_texture geometry year =
    match get_texture_try cfg geometry with
    | Ok value => (Ok value, [])
    | Raise e => (Ok VNone, ["Warning: Could not extract soil texture: " +:+ exn_str e])
    end.
Proof.
  intros Hcfg Hty Hr. unfold get_texture, getitem. now rewrite Hcfg, Hty, Hr.
Qed.

(** C5. When the raw texture value obtained by [get_texture] is numeric
    (an int or a float), [get_texture_id] returns [None]; and for a
    non-numeric raw value whose normalized name is not a key of
    [TEXTURE_MAP] (or that has no normalized name), it returns [None] as
    well. *)
Theorem C5_texture_id_undefined `{Runtime}
    (geometry : pyval) (year : option Z) (texture_value : pyval) (out : list string) :
  get_texture geometry year = (Ok texture_value, out) ->
  (is_int_or_float texture_value = true ->
   get_texture_id geometry year = (Ok VNone, out)) /\
  (is_int_or_float texture_value = false ->
   match _normalize_texture_name texture_value with
   | Some name => TEXTURE_MAP !! name = None
   | None => True
   end ->
   get_texture_id geometry year = (Ok VNone, out)).
Proof.
  intros Htex. unfold get_texture_id. rewrite Htex. split.
  - intros Hnum. rewrite Hnum. destruct (is_None texture_value); reflexivity.
  - intros Hnum Hname. rewrite Hnum.
    destruct (is_None texture_value); [reflexivity|].
    destruct (_normalize_texture_name texture_value) as [name|]; [|reflexivity].
    now rewrite Hname.
Qed.

Lemma C5_texture_id_undefined_witness :
  @get_texture_id Sample.raster_world Sample.point None = (Ok VNone, []) /\
  @get_texture_id Sample.vector_world_unmapped Sample.point None = (Ok VNone, []).
Proof.
  split.
  - apply (proj1 (@C5_texture_id_undefined Sample.raster_world Sample.point None
                    (VFloat (58 * 0.1)%float) [] eq_refl)); reflexivity.
  - apply (proj2 (@C5_texture_id_undefined Sample.vector_world_unmapped Sample.point None
                    (VStr "Volcanic Ash") [] eq_refl)); reflexivity.
Defined.

(** A mapped name still gets its id. *)
Example texture_id_clay :
  @get_texture_id Sample.vector_world Sample.point None = (Ok (VInt 12), []).
Proof. reflexivity. Qed.

(** What [get_texture] does with a dataset that is not raster-typed, step
    by step, in terms of the geometry parser and of the service. *)
Lemma get_texture_vector_steps `{Runtime}
    (geometry : pyval) (year : option Z) (cfg : config) (type : pyval) :
  get_dataset_config "soil_texture" = Ok cfg ->
  cfg !! "type" = Some type ->
  py_eq_str type "raster" = false ->
  get_texture geometry year =
    match parse_geometry geometry with
    | Raise e => (Ok VNone, [texture_warning e])
    | Ok geom =>
        match cfg !! "asset_id" with
        | None => (Ok VNone, [texture_warning (KeyError "asset_id")])
        | Some asset_id =>
            match first (ee_filterBounds (ee_FeatureCollection asset_id) geom) with
            | Raise e => (Ok VNone, [texture_warning e])
            | Ok None => (Ok VNone, [])
            | Ok (Some feature) =>
                match cfg !! "field" with
                | None => (Ok VNone, [texture_warning (KeyError "field")])
                | Some field =>
                    match getInfo (ee_get feature field) with
                    | Raise e => (Ok VNone, [texture_warning e])
                    | Ok value => (Ok value, [])
                    end
                end
            end
        end
    end.
Proof.
  intros Hcfg Hty Hvec. rewrite (get_texture_vector _ _ _ _ Hcfg Hty Hvec).
  unfold get_texture_try, getitem.
  destruct (parse_geometry geometry) as [geom|e]; [|reflexivity]. rewrite bind_Ok.
  destruct (cfg !! "asset_id") as [asset_id|]; [|reflexivity]. rewrite bind_Ok.
  destruct (first _) as [[feature|]|e]; try reflexivity. rewrite bind_Ok.
  destruct (cfg !! "field") as [field|]; [|reflexivity]. rewrite bind_Ok.
  reflexivity.
Qed.

(** C8, as the code has it.  With a soil_texture dataset that is not
    raster-typed, [get_texture] never raises: an exception raised while
    parsing the geometry, looking for the feature or reading its field is
    caught, a warning with the text of the exception is printed and [None]
    is returned; an absent feature gives [None] without a warning, and a
    field the service gives is returned as it is.  With a raster-typed
    dataset the call is [_extract_from_raster]'s: its result, [None]
    included, is returned, and its exceptions, those of the remote query
    included, reach the caller, nothing being printed. *)
Theorem C8_texture_errors `{Runtime}
    (geometry : pyval) (year : option Z) (cfg : config) (type : pyval) :
  get_dataset_config "soil_texture" = Ok cfg ->
  cfg !! "type" = Some type ->
  (py_eq_str type "raster" = false ->
     (exists value out, get_texture geometry year = (Ok value, out)) /\
     (forall e, parse_geometry geometry = Raise e ->
        get_texture geometry year = (Ok VNone, [texture_warning e])) /\
     (forall geom asset_id,
        parse_geometry geometry = Ok geom ->
        cfg !! "asset_id" = Some asset_id ->
        let hit := first (ee_filterBounds (ee_FeatureCollection asset_id) geom) in
        (forall e, hit = Raise e ->
           get_texture geometry year = (Ok VNone, [texture_warning e])) /\
        (hit = Ok None -> get_texture geometry year = (Ok VNone, [])) /\
        (forall feature field,
           hit = Ok (Some feature) ->
           cfg !! "field" = Some field ->
           (forall e, getInfo (ee_get feature field) = Raise e ->
              get_texture geometry year = (Ok VNone, [texture_warning e])) /\
           (forall value, getInfo (ee_get feature field) = Ok value ->
              get_texture geometry year = (Ok value, []))))) /\
  (py_eq_str type "raster" = true ->
     get_texture geometry year = (_extract_from_raster geometry "soil_texture" year, []) /\
     (forall geom asset_id band reducer scale e,
        parse_geometry geometry = Ok geom ->
        cfg !! "asset_id" = Some asset_id ->
        cfg !! "band" = Some band ->
        _get_reducer (dict_get cfg "reducer" (VStr "mean")) = Ok reducer ->
        cfg !! "scale" = Some scale ->
        getInfo (ee_get (ee_reduceRegion (loaded_image cfg asset_id band year)
                           reducer geom scale 1e9%float) band) = Raise e ->
        get_texture geometry year = (Raise e, []))).
Proof.
  intros Hcfg Hty. split.
  - intros Hvec. rewrite (get_texture_vector_steps _ _ _ _ Hcfg Hty Hvec).
    split; [|split].
    + destruct (parse_geometry geometry) as [geom|e]; [|eauto].
      destruct (cfg !! "asset_id") as [asset_id|]; [|eauto].
      destruct (first _) as [[feature|]|e]; [|eauto|eauto].
      destruct (cfg !! "field") as [field|]; [|eauto].
      destruct (getInfo _) as [value|e]; eauto.
    + intros e ->. reflexivity.
    + intros geom asset_id -> -> hit. subst hit. split; [|split].
      * intros e ->. reflexivity.
      * intros ->. reflexivity.
      * intros feature field -> ->. split; [intros e ->|intros value ->]; reflexivity.
  - intros Hras. rewrite (get_texture_raster _ _ _ _ Hcfg Hty Hras).
    split; [reflexivity|].
    intros geom asset_id band reducer scale e Hgeom Ha Hb Hr Hs Herr.
    rewrite (extract_from_raster_blocks _ _ _ _ _ _ _ Hcfg Hgeom
               (load_dataset_image cfg year asset_id band Ha Hb)).
    unfold reduce_region, getitem, _ee_to_float. rewrite Hr, Hs, !bind_Ok, Herr.
    reflexivity.
Qed.

Lemma C8_texture_errors_witness :
  @get_texture Sample.vector_world_down Sample.point None =
    (Ok VNone, ["Warning: Could not extract soil texture: service unreachable"]) /\
  @get_texture Sample.vector_world Sample.polygon None = (Ok VNone, []) /\
  @get_texture Sample.vector_world Sample.point None = (Ok (VStr "Clay, Clay Loam"), []) /\
  @get_texture Sample.raster_world_down Sample.point None =
    (Raise (mkExn "EEException" "service unreachable"), []).
Proof.
  pose proof (@C8_texture_errors Sample.vector_world_down Sample.point None
                Sample.soil_texture_vector (VStr "vector") eq_refl eq_refl)
    as [Hdown _].
  pose proof (@C8_texture_errors Sample.vector_world Sample.polygon None
                Sample.soil_texture_vector (VStr "vector") eq_refl eq_refl)
    as [Hnone _].
  pose proof (@C8_texture_errors Sample.vector_world Sample.point None
                Sample.soil_texture_vector (VStr "vector") eq_refl eq_refl)
    as [Hup _].
  pose proof (@C8_texture_errors Sample.raster_world_down Sample.point None
                Sample.soil_ph (VStr "raster") eq_refl eq_refl)
    as [_ Hraster].
  split; [|split; [|split]].
  - destruct (Hdown eq_refl) as (_ & _ & Hsteps).
    destruct (Hsteps (ee_Geometry Sample.point) (VStr "projects/sample/assets/soil_texture")
                eq_refl eq_refl) as (_ & _ & Hfield).
    apply (proj1 (Hfield Sample.feature (VStr "texture") eq_refl eq_refl)
             (mkExn "EEException" "service unreachable")).
    reflexivity.
  - destruct (Hnone eq_refl) as (_ & _ & Hsteps).
    destruct (Hsteps (ee_Geometry Sample.polygon) (VStr "projects/sample/assets/soil_texture")
                eq_refl eq_refl) as (_ & Habsent & _).
    apply Habsent. reflexivity.
  - destruct (Hup eq_refl) as (_ & _ & Hsteps).
    destruct (Hsteps (ee_Geometry Sample.point) (VStr "projects/sample/assets/soil_texture")
                eq_refl eq_refl) as (_ & _ & Hfield).
    apply (proj2 (Hfield Sample.feature (VStr "texture") eq_refl eq_refl)
             (VStr "Clay, Clay Loam")).
    reflexivity.
  - apply (proj2 (Hraster eq_refl) (ee_Geometry Sample.point)
             (VStr "OpenLandMap/SOL/SOL_PH-H2O_USDA-4C1A2A_M/v02") (VStr "b0")
             Reducer_mean (VInt 250)
             (mkExn "EEException" "service unreachable"));
      reflexivity.
Defined.

(** C8 as the specification states it fails for the raster-typed
    soil_texture dataset: with the service down, the error of the remote
    query reaches the caller of [get_texture]. *)
Lemma C8_raster_counterexample :
  ~ texture_never_raises Sample.raster_world_down /\
  @get_texture Sample.raster_world_down Sample.point None =
    (Raise (mkExn "EEException" "service unreachable"), []).
Proof.
  split; [|reflexivity].
  intros Hclaim.
  destruct (Hclaim Sample.soil_ph Sample.point None eq_refl (mk_is_Some _ _ eq_refl))
    as (value & out & Hget).
  vm_compute in Hget. discriminate Hget.
Qed.

(* ===================================================================== *)
(** ** Typed wrappers                                                     *)
(* ===================================================================== *)

(** [int(round(x))] on a finite float is an integer nearest to it. *)
Lemma py_int_round_float (x : float) :
  float_is_finite x = true ->
  exists z, py_int_round (VFloat x) = Ok z /\ nearest_integer x z.
Proof.
  intros Hfin. apply float_round_finite in Hfin as [z Hz].
  exists z. split; [exact Hz | now apply float_round_nearest].
Qed.

(** The tail of the integer wrappers. *)
Lemma rounded_int_tail (reading : result pyval) :
  returns_rounded_int reading
    (value ← reading;
     if negb (is_None value) then z ← py_int_round value; Ok (VInt z) else Ok VNone).
Proof.
  unfold returns_rounded_int. repeat split.
  - intros ->. reflexivity.
  - intros x -> Hfin. rewrite bind_Ok. simpl.
    destruct (py_int_round_float x Hfin) as (z & Hz & Hnear).
    exists z. simpl in Hz. rewrite Hz. split; [reflexivity | exact Hnear].
  - intros n ->. reflexivity.
  - intros r. destruct reading as [value|e]; [|discriminate].
    rewrite bind_Ok. destruct value as [|b|n|x|t|l|d]; simpl;
      try discriminate.
    + intros [= <-]. now left.
    + intros [= <-]. right. eauto.
    + intros [= <-]. right. eauto.
    + destruct (float_round x) as [z|e]; simpl; [|discriminate].
      intros [= <-]. right. eauto.
Qed.






(** The sample readings, run through the wrappers. *)
Example sample_wrappers :
  @get_rainfall Sample.raster_world Sample.point None = Ok (VInt 1524) /\
  @get_temperature Sample.raster_world Sample.point (Some 2023) = Ok (VInt 22) /\
  @get_elevation Sample.raster_world Sample.point None = Ok (VInt 57).
Proof. repeat split; reflexivity. Qed.

(** On a reading that is not finite [round] has no integer to return and
    raises. *)
Example round_infinity :
  py_int_round (VFloat infinity) =
    Raise (OverflowError "cannot convert float infinity to integer").
Proof. reflexivity. Qed.

(* ===================================================================== *)
(** ** Centroid                                                           *)
(* ===================================================================== *)

(** C7. For a geometry that parses, [get_centroid_lat_lon] reads the
    coordinates of the centroid the service returns as (longitude,
    latitude), in that order, and returns (latitude, longitude), each
    rounded to 6 decimals. *)
Theorem C7_centroid_lat_lon `{Runtime}
    (geometry : pyval) (geom : ee_obj) (coords c0 c1 : pyval) (lon lat : float) :
  parse_geometry geometry = Ok geom ->
  getInfo (ee_coordinates (ee_centroid geom 1)) = Ok coords ->
  py_getitem coords 0 = Ok c0 ->
  py_float c0 = Ok lon ->
  py_getitem coords 1 = Ok c1 ->
  py_float c1 = Ok lat ->
  get_centroid_lat_lon geometry = Ok (round_ndigits lat 6, round_ndigits lon 6).
Proof.
  intros Hgeom Hinfo H0 Hlon H1 Hlat. unfold get_centroid_lat_lon.
  rewrite Hgeom, bind_Ok, Hinfo, bind_Ok, H0, bind_Ok, Hlon, bind_Ok,
    H1, bind_Ok, Hlat, bind_Ok.
  reflexivity.
Qed.

Lemma C7_centroid_lat_lon_witness :
  @get_centroid_lat_lon Sample.raster_world Sample.polygon =
    Ok (Sample.round_nd (-8.55)%float 6, Sample.round_nd 125.57%float 6).
Proof.
  apply (@C7_centroid_lat_lon Sample.raster_world Sample.polygon
           (ee_Geometry Sample.polygon)
           (VList [VFloat 125.57; VFloat (-8.55)])
           (VFloat 125.57) (VFloat (-8.55)));
    reflexivity.
Defined.

(* ===================================================================== *)
(** ** Years                                                              *)
(* ===================================================================== *)

(** [load_dataset] looks at the year only through its truth value when it
    picks the branch. *)
Lemma load_dataset_falsy (cfg : config) (year : option Z) :
  year_truthy year = false -> load_dataset cfg year = load_dataset cfg None.
Proof. intros Hy. unfold load_dataset. rewrite Hy. reflexivity. Qed.

Lemma extract_from_raster_falsy `{Runtime}
    (geometry : pyval) (name : string) (year : option Z) :
  year_truthy year = false ->
  _extract_from_raster geometry name year = _extract_from_raster geometry name None.
Proof.
  intros Hy. unfold _extract_from_raster.
  destruct (get_dataset_config name) as [cfg|e]; simpl; [|reflexivity].
  destruct (parse_geometry geometry) as [geom|e]; simpl; [|reflexivity].
  now rewrite (load_dataset_falsy cfg year Hy).
Qed.

(** The request [_extract_from_raster] sends once the descriptor is
    complete, and what it does with the answer. *)
Lemma extract_from_raster_request `{Runtime}
    (geometry : pyval) (name : string) (year : option Z) (cfg : config) (geom : ee_obj)
    (asset_id band : pyval) (reducer : ee_reducer) (scale : pyval) :
  get_dataset_config name = Ok cfg ->
  parse_geometry geometry = Ok geom ->
  cfg !! "asset_id" = Some asset_id ->
  cfg !! "band" = Some band ->
  _get_reducer (dict_get cfg "reducer" (VStr "mean")) = Ok reducer ->
  cfg !! "scale" = Some scale ->
  _extract_from_raster geometry name year =
    (value ← _ee_to_float
               (Remote (ee_get (ee_reduceRegion (loaded_image cfg asset_id band year)
                                  reducer geom scale 1e9%float) band));
     match value with
     | Some x => spec_transform (raster_pipeline cfg) cfg x
     | None => Ok VNone
     end).
Proof.
  intros Hcfg Hgeom Ha Hb Hr Hs.
  rewrite (extract_from_raster_blocks _ _ _ _ _ _ _ Hcfg Hgeom
             (load_dataset_image cfg year asset_id band Ha Hb)).
  unfold reduce_region, getitem. rewrite Hr, Hs, !bind_Ok.
  destruct (_ee_to_float _) as [[x|]|e]; try reflexivity.
  rewrite !bind_Ok. apply raster_transformations_spec.
Qed.

(** C10. A year that is [None] or 0 is replaced by the literal 2024 in
    [get_rainfall] and [get_temperature] before the extraction, any other
    year being passed on; and inside [_extract_from_raster] a year that is
    [None] or 0 switches the temporal filter off, even for a dataset whose
    configuration has temporal = true: the value is reduced from the
    single non-temporal image of the band, where any other year reads the
    collapsed collection of that year. *)
Theorem C10_falsy_year `{Runtime} (geometry : pyval) :
  (forall year, year = None \/ year = Some 0 ->
     get_rainfall geometry year =
       (value ← _extract_from_raster geometry "rainfall" (Some 2024);
        if negb (is_None value) then z ← py_int_round value; Ok (VInt z) else Ok VNone) /\
     get_temperature geometry year =
       (value ← _extract_from_raster geometry "temperature" (Some 2024);
        if negb (is_None value) then z ← py_int_round value; Ok (VInt z) else Ok VNone)) /\
  (forall y, y <> 0 ->
     get_rainfall geometry (Some y) =
       (value ← _extract_from_raster geometry "rainfall" (Some y);
        if negb (is_None value) then z ← py_int_round value; Ok (VInt z) else Ok VNone) /\
     get_temperature geometry (Some y) =
       (value ← _extract_from_raster geometry "temperature" (Some y);
        if negb (is_None value) then z ← py_int_round value; Ok (VInt z) else Ok VNone)) /\
  (forall name cfg geom asset_id band reducer scale,
     get_dataset_config name = Ok cfg ->
     parse_geometry geometry = Ok geom ->
     cfg !! "asset_id" = Some asset_id ->
     cfg !! "band" = Some band ->
     _get_reducer (dict_get cfg "reducer" (VStr "mean")) = Ok reducer ->
     cfg !! "scale" = Some scale ->
     is_temporal cfg = true ->
     (forall year, year = None \/ year = Some 0 ->
        _extract_from_raster geometry name year =
          (value ← _ee_to_float
                     (Remote (ee_get (ee_reduceRegion (single_image asset_id band)
                                        reducer geom scale 1e9%float) band));
           match value with
           | Some x => spec_transform (raster_pipeline cfg) cfg x
           | None => Ok VNone
           end)) /\
     (forall y, y <> 0 ->
        _extract_from_raster geometry name (Some y) =
          (value ← _ee_to_float
                     (Remote (ee_get (ee_reduceRegion
                                        (collapse cfg (yearly_collection asset_id band y))
                                        reducer geom scale 1e9%float) band));
           match value with
           | Some x => spec_transform (raster_pipeline cfg) cfg x
           | None => Ok VNone
           end))).
Proof.
  split; [|split].
  - intros year [->| ->]; split; reflexivity.
  - intros y Hy. unfold get_rainfall, get_temperature, year_or. simpl.
    apply Z.eqb_neq in Hy. rewrite Hy. split; reflexivity.
  - intros name cfg geom asset_id band reducer scale Hcfg Hgeom Ha Hb Hr Hs Htemp. split.
    + intros year Hyear.
      rewrite (extract_from_raster_request geometry name year cfg geom asset_id band
                 reducer scale Hcfg Hgeom Ha Hb Hr Hs).
      destruct Hyear as [->| ->]; [reflexivity|].
      unfold loaded_image. simpl. now rewrite andb_false_r.
    + intros y Hy.
      rewrite (extract_from_raster_request geometry name (Some y) cfg geom asset_id band
                 reducer scale Hcfg Hgeom Ha Hb Hr Hs).
      unfold loaded_image. rewrite Htemp. apply Z.eqb_neq in Hy. now rewrite Hy.
Qed.

Lemma C10_falsy_year_witness :
  @_extract_from_raster Sample.raster_world Sample.point "rainfall" (Some 0) = Ok (VInt 4) /\
  @_extract_from_raster Sample.raster_world Sample.point "rainfall" None = Ok (VInt 4) /\
  @_extract_from_raster Sample.raster_world Sample.point "rainfall" (Some 2024)
    = Ok (VInt 1524) /\
  @get_rainfall Sample.raster_world Sample.point (Some 0) = Ok (VInt 1524) /\
  @get_rainfall Sample.raster_world Sample.point None = Ok (VInt 1524).
Proof.
  pose proof (@C10_falsy_year Sample.raster_world Sample.point) as (Hsub & _ & Himg).
  destruct (Himg "rainfall" Sample.rainfall (ee_Geometry Sample.point)
              (VStr "UCSB-CHG/CHIRPS/DAILY") (VStr "precipitation") Reducer_sum (VInt 5566)
              eq_refl eq_refl eq_refl eq_refl eq_refl eq_refl eq_refl) as [Hfalsy Hyear].
  split; [|split; [|split; [|split]]].
  - rewrite (Hfalsy (Some 0) (or_intror eq_refl)). reflexivity.
  - rewrite (Hfalsy None (or_introl eq_refl)). reflexivity.
  - rewrite (Hyear 2024 ltac:(discriminate)). reflexivity.
  - rewrite (proj1 (Hsub (Some 0) (or_intror eq_refl))). reflexivity.
  - rewrite (proj1 (Hsub None (or_introl eq_refl))). reflexivity.
Defined.

(* ===================================================================== *)
(** ** Farm profile                                                       *)
(* ===================================================================== *)

Lemma annual_rainfall_length `{Runtime}
    (geom_raw : pyval) (years : list Z) (rows : list pyval) :
  annual_rainfall geom_raw years = Ok rows -> length rows = length years.
Proof.
  revert rows. induction years as [|y years IH]; intros rows; simpl.
  - intros [= <-]. reflexivity.
  - destruct (get_rainfall geom_raw (Some y)) as [value|e]; simpl; [|discriminate].
    destruct (annual_rainfall geom_raw years) as [tail|e]; simpl; [|discriminate].
    intros [= <-]. simpl. f_equal. now apply IH.
Qed.

(** C9, on the code.  The profile [build_farm_profile] returns has the
    keys "farm_id", "geometry" and "rainfall" (one entry per year) and no
    others: there is no "coastal" field and no "status" field in it. *)
Theorem C9_profile_has_no_coastal `{Runtime}
    (farm_id geom_raw : pyval) (years : list Z) (profile : pyval) :
  build_farm_profile farm_id geom_raw years = Ok profile ->
  exists rainfall,
    profile = VDict [("farm_id", farm_id); ("geometry", geom_raw);
                     ("rainfall", VList rainfall)] /\
    length rainfall = length years /\
    has_key profile "coastal" = false /\
    has_key profile "status" = false.
Proof.
  unfold build_farm_profile.
  destruct (parse_geometry geom_raw) as [geom|e]; simpl; [|discriminate].
  destruct (annual_rainfall geom_raw years) as [rainfall|e] eqn:Hrain; simpl;
    [|discriminate].
  intros [= <-]. exists rainfall. repeat split.
  now apply (annual_rainfall_length geom_raw).
Qed.

Lemma C9_profile_has_no_coastal_witness :
  exists rainfall,
    VDict [("farm_id", VStr "F1"); ("geometry", Sample.point);
           ("rainfall", VList [VDict [("year", VInt 2024); ("rainfall_mm", VInt 1524)]])]
    = VDict [("farm_id", VStr "F1"); ("geometry", Sample.point);
             ("rainfall", VList rainfall)] /\
    length rainfall = length [2024] /\
    has_key (VDict [("farm_id", VStr "F1"); ("geometry", Sample.point);
                    ("rainfall",
                     VList [VDict [("year", VInt 2024); ("rainfall_mm", VInt 1524)]])])
      "coastal" = false /\
    has_key (VDict [("farm_id", VStr "F1"); ("geometry", Sample.point);
                    ("rainfall",
                     VList [VDict [("year", VInt 2024); ("rainfall_mm", VInt 1524)]])])
      "status" = false.
Proof.
  apply (@C9_profile_has_no_coastal Sample.raster_world
           (VStr "F1") Sample.point [2024]).
  reflexivity.
Defined.

(** A geometry that does not parse makes [build_farm_profile] raise; no
    record with a failed status is returned. *)
Example build_farm_profile_invalid :
  @build_farm_profile Sample.raster_world (VStr "F1") (VStr "invalid") [2024] =
    Raise (ValueError "Unsupported geometry format").
Proof. reflexivity. Qed.

(* ===================================================================== *)
(** ** Further properties: reducers and the raster path                   *)
(* ===================================================================== *)

Lemma reducers_unknown (s : string) :
  s ∉ ["mean"; "sum"; "median"; "min"; "max"] -> reducers !! s = None.
Proof.
  intros Hs. unfold reducers.
  repeat (rewrite lookup_insert_ne by (intros <-; apply Hs; set_solver)).
  apply lookup_singleton_ne. intros <-. apply Hs. set_solver.
Qed.

(** X1. [_get_reducer] never raises on a string: the five names give
    their own reducer, and every other string, whatever its case ("SUM",
    "Mean", ""), falls back to the mean. *)
Theorem X1_get_reducer_fallback (s : string) :
  _get_reducer (VStr "mean") = Ok Reducer_mean /\
  _get_reducer (VStr "sum") = Ok Reducer_sum /\
  _get_reducer (VStr "median") = Ok Reducer_median /\
  _get_reducer (VStr "min") = Ok Reducer_min /\
  _get_reducer (VStr "max") = Ok Reducer_max /\
  (s ∉ ["mean"; "sum"; "median"; "min"; "max"] ->
   _get_reducer (VStr s) = Ok Reducer_mean).
Proof.
  do 5 (split; [reflexivity|]).
  intros Hs. unfold _get_reducer. now rewrite (reducers_unknown s Hs).
Qed.

Lemma X1_get_reducer_fallback_witness :
  _get_reducer (VStr "SUM") = Ok Reducer_mean.
Proof.
  apply (proj2 (proj2 (proj2 (proj2 (proj2 (X1_get_reducer_fallback "SUM")))))).
  intros Hin. repeat (apply elem_of_cons in Hin as [Hin|Hin]; [discriminate Hin|]).
  by apply elem_of_nil in Hin.
Defined.

(** X2. For a temporal dataset read for a year other than 0 whose
    configured reducer is a name other than "sum", the images of the year
    are averaged over time, whereas the region is reduced with the
    configured reducer itself: with "median" the request is the regional
    median of the yearly mean. *)
Theorem X2_time_mean_space_named `{Runtime}
    (geometry : pyval) (name : string) (y : Z) (cfg : config) (geom : ee_obj)
    (asset_id band scale : pyval) (r : string) (reducer : ee_reducer) :
  get_dataset_config name = Ok cfg ->
  parse_geometry geometry = Ok geom ->
  cfg !! "asset_id" = Some asset_id ->
  cfg !! "band" = Some band ->
  cfg !! "scale" = Some scale ->
  cfg !! "reducer" = Some (VStr r) ->
  reducers !! r = Some reducer ->
  r <> "sum" ->
  is_temporal cfg = true ->
  y <> 0 ->
  _extract_from_raster geometry name (Some y) =
    (value ← _ee_to_float
               (Remote (ee_get (ee_reduceRegion (ee_mean (yearly_collection asset_id band y))
                                  reducer geom scale 1e9%float) band));
     raster_transformations cfg value).
Proof.
  intros Hcfg Hgeom Ha Hb Hs Hr Hred Hsum Htemp Hy.
  rewrite (extract_from_raster_blocks geometry name (Some y) cfg geom
             (loaded_image cfg asset_id band (Some y)) band Hcfg Hgeom
             (load_dataset_image cfg (Some y) asset_id band Ha Hb)).
  unfold loaded_image. rewrite Htemp.
  destruct (Z.eqb_spec y 0) as [|_]; [contradiction|]. simpl.
  rewrite (collapse_not_sum cfg (VStr r)) by (try assumption; congruence).
  unfold reduce_region, dict_get, getitem. rewrite Hr, Hs. simpl.
  rewrite Hred. reflexivity.
Qed.

Lemma X2_time_mean_space_named_witness :
  @_extract_from_raster Cases.median_world Sample.point "temperature" (Some 2023) =
    (value ← @_ee_to_float Cases.median_world
               (Remote (ee_get (ee_reduceRegion
                                  (ee_mean (yearly_collection (VStr "MODIS/061/MOD11A1")
                                              (VStr "LST_Day_1km") 2023))
                                  Reducer_median (ee_Geometry Sample.point) (VInt 1000)
                                  1e9%float) (VStr "LST_Day_1km")));
     @raster_transformations Cases.median_world Cases.temperature_median value).
Proof.
  apply (@X2_time_mean_space_named Cases.median_world Sample.point "temperature" 2023
           Cases.temperature_median (ee_Geometry Sample.point)
           (VStr "MODIS/061/MOD11A1") (VStr "LST_Day_1km") (VInt 1000)
           "median" Reducer_median);
    try reflexivity; discriminate.
Defined.

(** X3. For a dataset that is not temporal the year plays no role:
    [_extract_from_raster] gives the same result for every year as for no
    year. *)
Theorem X3_non_temporal_ignores_year `{Runtime}
    (geometry : pyval) (name : string) (year : option Z) (cfg : config) :
  get_dataset_config name = Ok cfg ->
  is_temporal cfg = false ->
  _extract_from_raster geometry name year = _extract_from_raster geometry name None.
Proof.
  intros Hcfg Htemp. unfold _extract_from_raster. rewrite Hcfg, !bind_Ok.
  destruct (parse_geometry geometry) as [geom|e]; [|reflexivity].
  rewrite !bind_Ok. unfold load_dataset. fold (is_temporal cfg).
  rewrite Htemp, andb_false_r. reflexivity.
Qed.

Lemma X3_non_temporal_ignores_year_witness :
  @_extract_from_raster Sample.raster_world Sample.point "elevation" (Some 1999) =
  @_extract_from_raster Sample.raster_world Sample.point "elevation" None.
Proof.
  apply (@X3_non_temporal_ignores_year Sample.raster_world Sample.point "elevation"
           (Some 1999) Sample.elevation); reflexivity.
Defined.


(** Two texts with the same ending and the same whole are the same. *)
Lemma str_app_inv_tail (s1 s2 t : string) : s1 +:+ t = s2 +:+ t -> s1 = s2.
Proof.
  revert s2. induction s1 as [|c s1 IH]; intros [|d s2] Heq; simpl in Heq.
  - reflexivity.
  - apply (f_equal String.length) in Heq.
    rewrite ?str_length_app in Heq. simpl in Heq. rewrite ?str_length_app in Heq. lia.
  - apply (f_equal String.length) in Heq.
    rewrite ?str_length_app in Heq. simpl in Heq. rewrite ?str_length_app in Heq. lia.
  - injection Heq as -> Heq. f_equal. now apply IH.
Qed.

Lemma collapse_inj (cfg : config) (c1 c2 : ee_obj) :
  collapse cfg c1 = collapse cfg c2 -> c1 = c2.
Proof.
  unfold collapse.
  destruct (cfg !! "reducer") as [[| | | |r| |]|]; try (intros [= ->]; reflexivity).
  destruct (String.eqb r "sum"); intros [= ->]; reflexivity.
Qed.

(** X4. Different years never share a request: for a temporal dataset,
    two years other than 0 that differ give different date windows, hence
    different images to reduce. *)
Theorem X4_year_windows_distinct
    (cfg : config) (asset_id band : pyval) (y1 y2 : Z) :
  cfg !! "asset_id" = Some asset_id ->
  cfg !! "band" = Some band ->
  is_temporal cfg = true ->
  y1 <> 0 -> y2 <> 0 -> y1 <> y2 ->
  load_dataset cfg (Some y1) <> load_dataset cfg (Some y2).
Proof.
  intros Ha Hb Htemp H1 H2 Hne.
  rewrite (load_dataset_image cfg (Some y1) asset_id band Ha Hb),
          (load_dataset_image cfg (Some y2) asset_id band Ha Hb).
  unfold loaded_image. rewrite Htemp.
  destruct (Z.eqb_spec y1 0) as [|_]; [contradiction|].
  destruct (Z.eqb_spec y2 0) as [|_]; [contradiction|].
  simpl. intros [= Heq]. apply collapse_inj in Heq.
  unfold yearly_collection in Heq. injection Heq as Hstart _.
  apply str_app_inv_tail in Hstart.
  apply Hne. exact (inj pretty _ _ Hstart).
Qed.

Lemma X4_year_windows_distinct_witness :
  is_temporal Sample.rainfall = true /\
  load_dataset Sample.rainfall (Some 2023) <> load_dataset Sample.rainfall (Some 2024).
Proof.
  split; [reflexivity|].
  apply (X4_year_windows_distinct Sample.rainfall
           (VStr "UCSB-CHG/CHIRPS/DAILY") (VStr "precipitation") 2023 2024);
    try reflexivity; discriminate.
Defined.

(** X5. A descriptor with a key missing makes [_extract_from_raster]
    raise [KeyError] naming the first missing key, in the order asset_id,
    band, scale, whatever the year and whatever the service would
    answer.  The reducer is looked up before the scale is read: a reducer
    entry that is a list or a dict raises [TypeError] (it cannot be a
    dictionary key), even when the scale is missing as well. *)
Theorem X5_raster_missing_key `{Runtime}
    (geometry : pyval) (name : string) (year : option Z) (cfg : config) (geom : ee_obj) :
  get_dataset_config name = Ok cfg ->
  parse_geometry geometry = Ok geom ->
  (cfg !! "asset_id" = None ->
   _extract_from_raster geometry name year = Raise (KeyError "asset_id")) /\
  (is_Some (cfg !! "asset_id") -> cfg !! "band" = None ->
   _extract_from_raster geometry name year = Raise (KeyError "band")) /\
  (is_Some (cfg !! "asset_id") -> is_Some (cfg !! "band") ->
   cfg !! "scale" = None ->
   _extract_from_raster geometry name year =
     match dict_get cfg "reducer" (VStr "mean") with
     | VList _ => Raise (TypeError "unhashable type: 'list'")
     | VDict _ => Raise (TypeError "unhashable type: 'dict'")
     | _ => Raise (KeyError "scale")
     end) /\
  (is_Some (cfg !! "asset_id") -> is_Some (cfg !! "band") ->
   forall l, cfg !! "reducer" = Some (VList l) ->
   _extract_from_raster geometry name year = Raise (TypeError "unhashable type: 'list'")).
Proof.
  intros Hcfg Hgeom. unfold _extract_from_raster.
  rewrite Hcfg, bind_Ok, Hgeom, bind_Ok. unfold load_dataset, getitem.
  split; [|split; [|split]].
  - intros Ha. rewrite Ha. destruct (_ && _); reflexivity.
  - intros [a Ha] Hb. rewrite Ha, Hb. destruct (_ && _); reflexivity.
  - intros [a Ha] [b Hb] Hs. rewrite Ha, Hb.
    unfold reduce_region, getitem. rewrite Hs.
    destruct (dict_get cfg "reducer" (VStr "mean")); destruct (_ && _); reflexivity.
  - intros [a Ha] [b Hb] l Hl. rewrite Ha, Hb.
    unfold reduce_region, dict_get. rewrite Hl.
    destruct (_ && _); reflexivity.
Qed.

Lemma X5_raster_missing_key_witness :
  @_extract_from_raster Cases.no_band_world Sample.point "rainfall" (Some 2024)
    = Raise (KeyError "band") /\
  @_extract_from_raster Cases.no_scale_world Sample.point "rainfall" (Some 2024)
    = Raise (TypeError "unhashable type: 'list'").
Proof.
  pose proof (@X5_raster_missing_key Cases.no_band_world Sample.point "rainfall"
                (Some 2024) Cases.rainfall_no_band (ee_Geometry Sample.point)
                eq_refl eq_refl) as (_ & Hband & _).
  pose proof (@X5_raster_missing_key Cases.no_scale_world Sample.point "rainfall"
                (Some 2024) Cases.rainfall_no_scale (ee_Geometry Sample.point)
                eq_refl eq_refl) as (_ & _ & Hscale & _).
  split.
  - apply Hband; [eexists; reflexivity | reflexivity].
  - apply (Hscale ltac:(eexists; reflexivity) ltac:(eexists; reflexivity) eq_refl).
Defined.

(** What the post-processing of a float can give, by rule. *)
Lemma post_process_rule_kinds `{Runtime} (cfg : config) (x : float) (v : pyval) :
  post_process_if_present cfg x = Ok v ->
  (exists z, v = VInt z /\ cfg !! "post_process" = Some (VStr "round_int")) \/
  (exists y, v = VFloat y /\ cfg !! "post_process" <> Some (VStr "round_int")).
Proof.
  unfold post_process_if_present, _apply_post_process.
  destruct (cfg !! "post_process") as [pp|]; simpl.
  - destruct pp as [| | | |rule| |]; simpl;
      try (intros [= <-]; right; eexists; split; [reflexivity | discriminate]).
    destruct (String.eqb_spec rule "round_int") as [->|Hrule].
    + destruct (float_round x) as [z|e]; simpl; [|discriminate].
      intros [= <-]. left. eauto.
    + intros Hv. right.
      assert (exists y, v = VFloat y) as [y ->].
      { destruct (String.eqb rule "round_1dp"); [injection Hv as <-; eauto|].
        destruct (String.eqb rule "round_2dp"); [injection Hv as <-; eauto|].
        destruct (String.eqb rule "round_3dp"); injection Hv as <-; eauto. }
      eexists. split; [reflexivity | congruence].
  - intros [= <-]. right. eexists. split; [reflexivity | discriminate].
Qed.

(** X6. The type of what [_extract_from_raster] returns is decided by the
    descriptor alone: an int exactly when post_process is "round_int", a
    float under every other rule or none, whatever the service sent (an
    integer reading comes back as a float). *)
Theorem X6_result_type_follows_rule `{Runtime}
    (geometry : pyval) (name : string) (year : option Z) (cfg : config) (v : pyval) :
  get_dataset_config name = Ok cfg ->
  _extract_from_raster geometry name year = Ok v ->
  v = VNone \/
  (exists z, v = VInt z /\ cfg !! "post_process" = Some (VStr "round_int")) \/
  (exists y, v = VFloat y /\ cfg !! "post_process" <> Some (VStr "round_int")).
Proof.
  intros Hcfg. unfold _extract_from_raster. rewrite Hcfg, bind_Ok.
  destruct (parse_geometry geometry) as [geom|e]; simpl; [|discriminate].
  destruct (load_dataset cfg year) as [[img band]|e]; simpl; [|discriminate].
  destruct (reduce_region cfg geom img band) as [[x|]|e]; simpl; try discriminate.
  - unfold raster_transformations.
    destruct (scale_if_present cfg "scale_factor" x) as [x1|e]; simpl; [|discriminate].
    destruct (add_if_present cfg "offset" x1) as [x2|e]; simpl; [|discriminate].
    destruct (add_if_present cfg "bias_correction" x2) as [x3|e]; simpl; [|discriminate].
    intros Hv. right. now apply (post_process_rule_kinds cfg x3).
  - intros [= <-]. now left.
Qed.

Lemma X6_result_type_follows_rule_witness :
  (exists z, VInt 1524 = VInt z /\
             Sample.rainfall !! "post_process" = Some (VStr "round_int")).
Proof.
  destruct (@X6_result_type_follows_rule Sample.raster_world Sample.point "rainfall"
              (Some 2024) Sample.rainfall (VInt 1524) eq_refl eq_refl)
    as [Hnone|[Hint|[y [Hfloat _]]]].
  - discriminate Hnone.
  - exact Hint.
  - discriminate Hfloat.
Defined.

(** X7. After the rule "round_int" every further post-processing is a
    no-op: whatever rule is applied to the rounded value returns it
    unchanged. *)
Theorem X7_post_process_after_round_int `{Runtime} (value rounded rule : pyval) :
  _apply_post_process value (VStr "round_int") = Ok rounded ->
  _apply_post_process rounded rule = Ok rounded.
Proof.
  unfold _apply_post_process at 1.
  destruct value as [|b|n|x|s|l|d]; simpl; try discriminate.
  - intros [= <-]. reflexivity.
  - intros [= <-]. unfold _apply_post_process. simpl.
    repeat (destruct (py_eq_str rule _); [reflexivity|]). reflexivity.
  - intros [= <-]. unfold _apply_post_process. simpl.
    repeat (destruct (py_eq_str rule _); [reflexivity|]). reflexivity.
  - destruct (float_round x) as [z|e]; simpl; [|discriminate].
    intros [= <-]. unfold _apply_post_process. simpl.
    repeat (destruct (py_eq_str rule _); [reflexivity|]). reflexivity.
Qed.

Lemma X7_post_process_after_round_int_witness :
  @_apply_post_process Sample.raster_world (VInt 1524) (VStr "round_1dp") = Ok (VInt 1524).
Proof.
  apply (@X7_post_process_after_round_int Sample.raster_world (VFloat 1523.5)).
  reflexivity.
Defined.

Lemma some_float_not_none (m : result float) :
  (x ← m; Ok (Some x)) <> Ok None.
Proof. destruct m; simpl; discriminate. Qed.

(** X8. [_ee_to_float] gives [None] exactly when the value is [None]:
    for a deferred expression, when the service answers [None]; a failed
    request or a value [float()] rejects raises instead. *)
Theorem X8_ee_to_float_none `{Runtime} (obj : ee_obj) (v : pyval) :
  (_ee_to_float (Remote obj) = Ok None <-> getInfo obj = Ok VNone) /\
  (_ee_to_float (Local v) = Ok None <-> v = VNone) /\
  (forall e, getInfo obj = Raise e -> _ee_to_float (Remote obj) = Raise e).
Proof.
  unfold _ee_to_float. repeat split.
  - destruct (getInfo obj) as [w|e]; simpl; [|discriminate].
    intros Hf. destruct w; simpl in Hf; try reflexivity; try discriminate Hf;
      now apply some_float_not_none in Hf.
  - intros ->. reflexivity.
  - intros Hf. destruct v; try reflexivity; try discriminate Hf;
      now apply some_float_not_none in Hf.
  - intros ->. reflexivity.
  - intros e ->. reflexivity.
Qed.

(* ===================================================================== *)
(** ** Further properties: the typed wrappers                             *)
(* ===================================================================== *)

(** The tail of the integer wrappers gives [None] only for a [None]
    reading and hands every exception on. *)
Lemma int_tail_none (reading : result pyval) :
  (value ← reading;
   if negb (is_None value) then z ← py_int_round value; Ok (VInt z) else Ok VNone)
  = Ok VNone <-> reading = Ok VNone.
Proof.
  split; [|intros ->; reflexivity].
  destruct reading as [value|e]; simpl; [|discriminate].
  destruct value as [|b|n|x|s|l|d]; simpl; try discriminate; [reflexivity|].
  destruct (float_round x); simpl; discriminate.
Qed.

(** X9. The raster wrappers return [None] exactly when the extraction
    returned [None], and never turn a failure into [None]: an exception
    raised by the extraction reaches the caller of [get_rainfall],
    [get_temperature], [get_elevation] and [get_ph] unchanged. *)
Theorem X9_wrappers_none_and_errors `{Runtime} (geometry : pyval) (year : option Z) :
  (get_rainfall geometry year = Ok VNone <->
   _extract_from_raster geometry "rainfall" (year_or year 2024) = Ok VNone) /\
  (get_temperature geometry year = Ok VNone <->
   _extract_from_raster geometry "temperature" (year_or year 2024) = Ok VNone) /\
  (get_elevation geometry year = Ok VNone <->
   _extract_from_raster geometry "elevation" None = Ok VNone) /\
  (get_ph geometry year = Ok VNone <->
   _extract_from_raster geometry "soil_ph" None = Ok VNone) /\
  (forall e,
     (_extract_from_raster geometry "rainfall" (year_or year 2024) = Raise e ->
      get_rainfall geometry year = Raise e) /\
     (_extract_from_raster geometry "temperature" (year_or year 2024) = Raise e ->
      get_temperature geometry year = Raise e) /\
     (_extract_from_raster geometry "elevation" None = Raise e ->
      get_elevation geometry year = Raise e) /\
     (_extract_from_raster geometry "soil_ph" None = Raise e ->
      get_ph geometry year = Raise e)).
Proof.
  split; [apply int_tail_none|].
  split; [apply int_tail_none|].
  split; [apply int_tail_none|].
  split.
  - unfold get_ph. split; [|intros ->; reflexivity].
    destruct (_extract_from_raster geometry "soil_ph" None) as [value|e]; simpl;
      [|discriminate].
    destruct (is_None value) eqn:Hnone; simpl.
    + destruct value; try discriminate Hnone. reflexivity.
    + destruct (py_float value); simpl; discriminate.
  - intros e. unfold get_rainfall, get_temperature, get_elevation, get_ph.
    repeat split; intros ->; reflexivity.
Qed.

Lemma X9_wrappers_none_and_errors_witness :
  @get_temperature Sample.raster_world_down Sample.point (Some 2023) =
    Raise (mkExn "EEException" "service unreachable").
Proof.
  pose proof (@X9_wrappers_none_and_errors Sample.raster_world_down Sample.point (Some 2023))
    as (_ & _ & _ & _ & Herr).
  apply (proj1 (proj2 (Herr (mkExn "EEException" "service unreachable")))).
  reflexivity.
Defined.

(** X10. [get_area_ha] has no [None] result: for an area the service
    cannot give ([None]) it raises the [TypeError] of [float(None)], and
    otherwise it returns the area divided by 10000 and rounded to 3
    decimals. *)
Theorem X10_area_never_none `{Runtime} (geometry : pyval) (geom : ee_obj) :
  parse_geometry geometry = Ok geom ->
  (getInfo (ee_area geom 1) = Ok VNone ->
   get_area_ha geometry =
     Raise (TypeError
              "float() argument must be a string or a real number, not 'NoneType'")) /\
  (forall v area_m2,
     getInfo (ee_area geom 1) = Ok v -> py_float v = Ok area_m2 ->
     get_area_ha geometry = Ok (round_ndigits (area_m2 / 10000)%float 3)).
Proof.
  intros Hgeom. unfold get_area_ha. rewrite Hgeom, bind_Ok. split.
  - intros ->. reflexivity.
  - intros v area_m2 -> Hv. rewrite bind_Ok, Hv. reflexivity.
Qed.

Lemma X10_area_never_none_witness :
  @get_area_ha Cases.short_world Sample.polygon =
    Raise (TypeError
             "float() argument must be a string or a real number, not 'NoneType'") /\
  @get_area_ha Sample.raster_world Sample.polygon =
    Ok (Sample.round_nd (12345.5 / 10000)%float 3).
Proof.
  split.
  - apply (proj1 (@X10_area_never_none Cases.short_world Sample.polygon
                    (ee_Geometry Sample.polygon) eq_refl)).
    reflexivity.
  - apply (proj2 (@X10_area_never_none Sample.raster_world Sample.polygon
                    (ee_Geometry Sample.polygon) eq_refl)
             (VFloat 12345.5) 12345.5%float); reflexivity.
Defined.

(** X11. [get_slope] asks for the mean of the terrain slope of the "dem"
    band over the geometry, whatever reducer the descriptor names, and
    returns it rounded to 1 decimal, never rescaled.  It reads only the
    asset, the band and the scale of the descriptor: changing any other
    key of it (reducer, temporal, scale_factor, offset, bias_correction,
    post_process) leaves the result unchanged. *)
Theorem X11_slope_ignores_other_keys `{RT : Runtime}
    (geometry : pyval) (year : option Z) (cfg : config) (key : string) (v : pyval) :
  get_dataset_config "dem" = Ok cfg ->
  key ∉ ["asset_id"; "band"; "scale"] ->
  @get_slope (with_config RT "dem" (<[key := v]> cfg)) geometry year
  = get_slope geometry year /\
  (forall geom asset_id band scale,
     parse_geometry geometry = Ok geom ->
     cfg !! "asset_id" = Some asset_id ->
     cfg !! "band" = Some band ->
     cfg !! "scale" = Some scale ->
     get_slope geometry year =
       (value ← _ee_to_float
                  (Remote (ee_get (ee_reduceRegion
                                     (ee_Terrain_slope (ee_select (ee_Image asset_id) band))
                                     Reducer_mean geom scale 1e9%float) (VStr "slope")));
        Ok (match value with
            | Some x => VFloat (round_ndigits x 1)
            | None => VNone
            end))).
Proof.
  intros Hcfg Hkey. split.
  - unfold get_slope, getitem. simpl.
    destruct (parse_geometry geometry) as [geom|e]; [|reflexivity].
    rewrite !bind_Ok, Hcfg, !bind_Ok.
    rewrite !lookup_insert_ne by (intros ->; apply Hkey; set_solver).
    reflexivity.
  - intros geom asset_id band scale Hgeom Ha Hb Hs.
    unfold get_slope, getitem. rewrite Hgeom, bind_Ok, Hcfg, bind_Ok, Ha, Hb, Hs, !bind_Ok.
    destruct (_ee_to_float _) as [[x|]|e]; reflexivity.
Qed.

Lemma X11_slope_ignores_other_keys_witness :
  @get_slope (with_config Sample.raster_world "dem"
                (<["reducer" := VStr "max"]> Sample.elevation)) Sample.point None
  = Ok (VFloat 3.3) /\
  @get_slope Sample.raster_world Sample.point None = Ok (VFloat 3.3).
Proof.
  assert (Hkey : "reducer" ∉ ["asset_id"; "band"; "scale"]).
  { intros Hin. repeat (apply elem_of_cons in Hin as [Hin|Hin]; [discriminate Hin|]).
    by apply elem_of_nil in Hin. }
  destruct (@X11_slope_ignores_other_keys Sample.raster_world Sample.point None
              Sample.elevation "reducer" (VStr "max") eq_refl Hkey) as [Hsame Hreq].
  assert (Hslope : @get_slope Sample.raster_world Sample.point None = Ok (VFloat 3.3)).
  { rewrite (Hreq (ee_Geometry Sample.point) (VStr "USGS/SRTMGL1_003") (VStr "elevation")
               (VInt 30) eq_refl eq_refl eq_refl eq_refl).
    reflexivity. }
  split; [now rewrite Hsame | exact Hslope].
Defined.

(* ===================================================================== *)
(** ** Further properties: soil texture                                   *)
(* ===================================================================== *)

(** X12. With a raster-typed soil_texture dataset [get_texture_id] never
    finds a texture class: every call that returns, returns [None], and
    prints nothing. *)
Theorem X12_raster_texture_has_no_id `{Runtime}
    (geometry : pyval) (year : option Z) (cfg : config) (r : pyval) (out : list string) :
  get_dataset_config "soil_texture" = Ok cfg ->
  cfg !! "type" = Some (VStr "raster") ->
  get_texture_id geometry year = (Ok r, out) ->
  r = VNone /\ out = [].
Proof.
  intros Hcfg Hty. unfold get_texture_id.
  rewrite (get_texture_raster geometry year cfg (VStr "raster") Hcfg Hty eq_refl).
  destruct (_extract_from_raster geometry "soil_texture" year) as [v|e] eqn:Hv;
    [|discriminate].
  destruct (extract_from_raster_kinds _ _ _ _ Hv) as [->|[[x ->]|[z ->]]]; simpl;
    intros [= <- <-]; split; reflexivity.
Qed.

Lemma X12_raster_texture_has_no_id_witness :
  VNone = VNone /\ ([] : list string) = [].
Proof.
  apply (@X12_raster_texture_has_no_id Sample.raster_world Sample.point None
           Sample.soil_ph VNone [] eq_refl eq_refl).
  reflexivity.
Defined.

(** X13. [get_texture] prints at most one line, a warning, and only when
    it returns [None] in place of an exception; a call that raises prints
    nothing.  [get_texture_id] prints exactly what [get_texture] did. *)
Theorem X13_texture_warning `{Runtime} (geometry : pyval) (year : option Z) :
  (snd (get_texture geometry year) = [] \/
   fst (get_texture geometry year) = Ok VNone /\
   exists e, snd (get_texture geometry year) =
               ["Warning: Could not extract soil texture: " +:+ exn_str e]) /\
  snd (get_texture_id geometry year) = snd (get_texture geometry year).
Proof.
  split.
  - unfold get_texture.
    destruct (get_dataset_config "soil_texture") as [cfg|e]; [|now left].
    destruct (getitem cfg "type") as [type|e]; [|now left].
    destruct (py_eq_str type "raster"); [now left|].
    destruct (get_texture_try cfg geometry) as [value|e]; [now left|].
    right. split; [reflexivity | eauto].
  - unfold get_texture_id.
    destruct (get_texture geometry year) as [[value|e] out]; [|reflexivity].
    destruct (is_None value); [reflexivity|].
    destruct (is_int_or_float value); [reflexivity|].
    destruct (_normalize_texture_name value); reflexivity.
Qed.

(** X14. Which failures [get_texture] lets through.  A failure to resolve
    the soil_texture descriptor, or a descriptor without "type", raises
    for both kinds of dataset.  An unparseable geometry raises with a
    raster-typed dataset, but with any other type it is swallowed: [None]
    is returned and a warning printed. *)
Theorem X14_texture_failures `{Runtime} (geometry : pyval) (year : option Z) :
  (forall e, get_dataset_config "soil_texture" = Raise e ->
     get_texture geometry year = (Raise e, [])) /\
  (forall cfg, get_dataset_config "soil_texture" = Ok cfg -> cfg !! "type" = None ->
     get_texture geometry year = (Raise (KeyError "type"), [])) /\
  (forall cfg type e,
     get_dataset_config "soil_texture" = Ok cfg -> cfg !! "type" = Some type ->
     parse_geometry geometry = Raise e ->
     get_texture geometry year =
       if py_eq_str type "raster" then (Raise e, [])
       else (Ok VNone, ["Warning: Could not extract soil texture: " +:+ exn_str e])).
Proof.
  repeat split.
  - intros e He. unfold get_texture. now rewrite He.
  - intros cfg Hcfg Hty. unfold get_texture, getitem. now rewrite Hcfg, Hty.
  - intros cfg type e Hcfg Hty Hgeom.
    destruct (py_eq_str type "raster") eqn:Hras.
    + rewrite (get_texture_raster geometry year cfg type Hcfg Hty Hras).
      unfold _extract_from_raster. now rewrite Hcfg, bind_Ok, Hgeom.
    + rewrite (get_texture_vector geometry year cfg type Hcfg Hty Hras).
      unfold get_texture_try. now rewrite Hgeom.
Qed.

Lemma X14_texture_failures_witness :
  @get_texture Sample.vector_world (VStr "invalid") None =
    (Ok VNone, ["Warning: Could not extract soil texture: Unsupported geometry format"]) /\
  @get_texture Sample.raster_world (VStr "invalid") None =
    (Raise (ValueError "Unsupported geometry format"), []).
Proof.
  split.
  - apply (proj2 (proj2 (@X14_texture_failures Sample.vector_world (VStr "invalid") None))
             Sample.soil_texture_vector (VStr "vector")
             (ValueError "Unsupported geometry format")); reflexivity.
  - apply (proj2 (proj2 (@X14_texture_failures Sample.raster_world (VStr "invalid") None))
             Sample.soil_ph (VStr "raster")
             (ValueError "Unsupported geometry format")); reflexivity.
Defined.

(** X15. With a dataset that is not raster-typed, [get_texture] returns
    the field of the first intersecting feature as the service gives it,
    text or number, unscaled and unrounded: the year is not used, and no
    key of the descriptor other than "type", "asset_id" and "field" (no
    scale_factor, no post_process) has any effect. *)
Theorem X15_vector_texture_is_raw `{RT : Runtime}
    (geometry : pyval) (year : option Z) (cfg : config) (type : pyval)
    (key : string) (v : pyval) :
  get_dataset_config "soil_texture" = Ok cfg ->
  cfg !! "type" = Some type ->
  py_eq_str type "raster" = false ->
  key ∉ ["type"; "asset_id"; "field"] ->
  get_texture geometry year = get_texture geometry None /\
  @get_texture (with_config RT "soil_texture" (<[key := v]> cfg)) geometry year
  = get_texture geometry year /\
  (forall geom asset_id feature field value,
     parse_geometry geometry = Ok geom ->
     cfg !! "asset_id" = Some asset_id ->
     first (ee_filterBounds (ee_FeatureCollection asset_id) geom) = Ok (Some feature) ->
     cfg !! "field" = Some field ->
     getInfo (ee_get feature field) = Ok value ->
     get_texture geometry year = (Ok value, []) /\
     @get_texture (with_config RT "soil_texture" (<[key := v]> cfg)) geometry year
     = (Ok value, [])).
Proof.
  intros Hcfg Hty Hvec Hkey.
  assert (Hsame :
    @get_texture (with_config RT "soil_texture" (<[key := v]> cfg)) geometry year
    = get_texture geometry year).
  { rewrite (get_texture_vector geometry year cfg type Hcfg Hty Hvec).
    unfold get_texture, getitem. simpl.
    rewrite !lookup_insert_ne by (intros ->; apply Hkey; set_solver).
    rewrite Hty, Hvec. unfold get_texture_try, getitem. simpl.
    rewrite !lookup_insert_ne by (intros ->; apply Hkey; set_solver).
    reflexivity. }
  split; [|split; [exact Hsame|]].
  - now rewrite !(get_texture_vector geometry _ cfg type Hcfg Hty Hvec).
  - intros geom asset_id feature field value Hgeom Ha Hfirst Hfield Hvalue.
    rewrite Hsame, (get_texture_vector_steps geometry year cfg type Hcfg Hty Hvec).
    now rewrite Hgeom, Ha, Hfirst, Hfield, Hvalue.
Qed.

Lemma X15_vector_texture_is_raw_witness :
  @get_texture Sample.vector_world Sample.point (Some 2020)
  = (Ok (VStr "Clay, Clay Loam"), []) /\
  @get_texture (with_config Sample.vector_world "soil_texture"
                  (<["post_process" := VStr "round_int"]> Sample.soil_texture_vector))
    Sample.point (Some 2020)
  = (Ok (VStr "Clay, Clay Loam"), []) /\
  @get_texture Cases.depth_world Sample.point None = (Ok (VFloat 1.5), []).
Proof.
  assert (Hkey : "post_process" ∉ ["type"; "asset_id"; "field"]).
  { intros Hin. repeat (apply elem_of_cons in Hin as [Hin|Hin]; [discriminate Hin|]).
    by apply elem_of_nil in Hin. }
  destruct (@X15_vector_texture_is_raw Sample.vector_world Sample.point (Some 2020)
              Sample.soil_texture_vector (VStr "vector") "post_process" (VStr "round_int")
              eq_refl eq_refl eq_refl Hkey) as (_ & _ & Hraw).
  destruct (@X15_vector_texture_is_raw Cases.depth_world Sample.point None
              Sample.soil_depth (VStr "vector") "post_process" (VStr "round_int")
              eq_refl eq_refl eq_refl Hkey) as (_ & _ & Hdepth).
  split; [|split].
  - apply (Hraw (ee_Geometry Sample.point) (VStr "projects/sample/assets/soil_texture")
             Sample.feature (VStr "texture") (VStr "Clay, Clay Loam"));
      reflexivity.
  - apply (Hraw (ee_Geometry Sample.point) (VStr "projects/sample/assets/soil_texture")
             Sample.feature (VStr "texture") (VStr "Clay, Clay Loam"));
      reflexivity.
  - apply (Hdepth (ee_Geometry Sample.point) (VStr "projects/sample/assets/soil_texture")
             Sample.feature (VStr "depth") (VFloat 1.5));
      reflexivity.
Defined.

(** X16. What [get_texture_id] can return: [None], or the id
    [TEXTURE_MAP] holds for the normalized name of the raw value, and the
    latter exactly when the raw value is not numeric and its normalized
    name is a key of the map. *)
Theorem X16_texture_id_range `{Runtime}
    (geometry : pyval) (year : option Z) (raw : pyval) (out : list string) :
  get_texture geometry year = (Ok raw, out) ->
  (forall name id,
     is_int_or_float raw = false ->
     _normalize_texture_name raw = Some name ->
     TEXTURE_MAP !! name = Some id ->
     get_texture_id geometry year = (Ok (VInt id), out)) /\
  (forall r, get_texture_id geometry year = (Ok r, out) ->
     r = VNone \/
     exists name id,
       is_int_or_float raw = false /\
       _normalize_texture_name raw = Some name /\
       TEXTURE_MAP !! name = Some id /\ r = VInt id).
Proof.
  intros Htex. unfold get_texture_id. rewrite Htex. split.
  - intros name id Hnum Hname Hid. rewrite Hnum, Hname, Hid.
    destruct raw; try reflexivity. discriminate Hname.
  - intros r. destruct (is_None raw); [intros [= <-]; now left|].
    destruct (is_int_or_float raw) eqn:Hnum; [intros [= <-]; now left|].
    destruct (_normalize_texture_name raw) as [name|] eqn:Hname;
      [|intros [= <-]; now left].
    destruct (TEXTURE_MAP !! name) as [id|] eqn:Hid; intros [= <-];
      [right; eauto 10 | now left].
Qed.

Lemma X16_texture_id_range_witness :
  @get_texture_id Sample.vector_world Sample.point None = (Ok (VInt 12), []).
Proof.
  apply (proj1 (@X16_texture_id_range Sample.vector_world Sample.point None
                  (VStr "Clay, Clay Loam") [] eq_refl) "clay" 12); reflexivity.
Defined.

(* ===================================================================== *)
(** ** Further properties: texture names                                  *)
(* ===================================================================== *)

Lemma to_lower_idem (c : ascii) : to_lower (to_lower c) = to_lower c.
Proof. destruct c as [[] [] [] [] [] [] [] []]; reflexivity. Qed.

Lemma to_lower_comma (c : ascii) : Ascii.eqb (to_lower c) comma = Ascii.eqb c comma.
Proof. destruct c as [[] [] [] [] [] [] [] []]; reflexivity. Qed.

Lemma str_lower_idem (s : string) : str_lower (str_lower s) = str_lower s.
Proof. induction s as [|c s IH]; simpl; [reflexivity | now rewrite to_lower_idem, IH]. Qed.

Lemma str_lower_app (s t : string) : str_lower (s +:+ t) = str_lower s +:+ str_lower t.
Proof. induction s as [|c s IH]; simpl; [reflexivity | now rewrite IH]. Qed.

Lemma str_lower_contains_comma (s : string) :
  str_contains comma (str_lower s) = str_contains comma s.
Proof. induction s as [|c s IH]; simpl; [reflexivity | now rewrite to_lower_comma, IH]. Qed.

Lemma str_lower_split_head (s : string) :
  str_lower (str_split_head comma s) = str_split_head comma (str_lower s).
Proof.
  induction s as [|c s IH]; simpl; [reflexivity|].
  rewrite to_lower_comma. destruct (Ascii.eqb c comma); simpl; [reflexivity | now rewrite IH].
Qed.

(** A left-trimmed text is empty or starts with a character that is not
    whitespace. *)
Lemma str_lstrip_head (s : string) :
  str_lstrip s = EmptyString \/
  exists c t, str_lstrip s = String c t /\ is_space c = false.
Proof.
  induction s as [|c s IH]; simpl; [now left|].
  destruct (is_space c) eqn:Hc; [exact IH | right; eauto].
Qed.

Lemma str_rstrip_cons (c : ascii) (s : string) :
  is_space c = false -> str_rstrip (String c s) = String c (str_rstrip s).
Proof. intros Hc. simpl. rewrite Hc. now destruct (str_rstrip s). Qed.

Lemma str_lstrip_idem (s : string) : str_lstrip (str_lstrip s) = str_lstrip s.
Proof.
  destruct (str_lstrip_head s) as [->|(c & t & -> & Hc)]; [reflexivity|].
  simpl. now rewrite Hc.
Qed.

Lemma str_rstrip_idem (s : string) : str_rstrip (str_rstrip s) = str_rstrip s.
Proof.
  induction s as [|c s IH]; simpl; [reflexivity|].
  destruct (str_rstrip s) as [|d t] eqn:Hr.
  - destruct (is_space c) eqn:Hc; simpl; [reflexivity | now rewrite Hc].
  - change (str_rstrip (String c (String d t)))
      with (match str_rstrip (String d t) with
            | EmptyString => if is_space c then EmptyString else String c EmptyString
            | String _ _ as r => String c r
            end).
    now rewrite IH.
Qed.

Lemma str_strip_idem (s : string) : str_strip (str_strip s) = str_strip s.
Proof.
  unfold str_strip.
  destruct (str_lstrip_head s) as [->|(c & t & -> & Hc)]; [reflexivity|].
  rewrite (str_rstrip_cons c t Hc). simpl str_lstrip. rewrite Hc.
  rewrite (str_rstrip_cons c _ Hc). now rewrite str_rstrip_idem.
Qed.

Lemma str_split_head_ascii (s : string) :
  str_is_ascii s = true -> str_is_ascii (str_split_head comma s) = true.
Proof.
  induction s as [|a r IH]; simpl; [reflexivity|].
  intros Hs. apply andb_prop in Hs as [Ha Hr].
  destruct (Ascii.eqb a comma); simpl; [reflexivity | now rewrite Ha, IH].
Qed.

Lemma str_is_ascii_app (s t : string) :
  str_is_ascii (s +:+ t) = str_is_ascii s && str_is_ascii t.
Proof. induction s as [|c s IH]; simpl; [reflexivity | now rewrite IH, andb_assoc]. Qed.

(** On ASCII text the code computes [normalize_ascii]. *)
Lemma normalize_texture_name_ascii `{Runtime} (value : pyval) :
  is_None value = false ->
  str_is_ascii (py_str value) = true ->
  _normalize_texture_name value = normalize_ascii (py_str value).
Proof.
  intros Hnone Hs. unfold _normalize_texture_name, normalize_ascii. rewrite Hnone.
  rewrite (py_strip_ascii _ Hs), (py_lower_ascii _ (str_strip_ascii _ Hs)).
  assert (Htxt : str_is_ascii (str_lower (str_strip (py_str value))) = true).
  { rewrite str_lower_ascii. now apply str_strip_ascii. }
  now rewrite (py_strip_ascii _ (str_split_head_ascii _ Htxt)).
Qed.

(** *** Trimming twice *)

Lemma py_lstrip_idem (s : string) : py_lstrip (py_lstrip s) = py_lstrip s.
Proof.
  remember (String.length s) as n eqn:Hn. revert s Hn.
  induction n as [n IH] using lt_wf_ind. intros s ->.
  destruct (py_lstrip_step_app s) as [Heq|(p & r & -> & Hp & Hx)]; [now rewrite !Heq|].
  specialize (Hx EmptyString). rewrite str_app_nil_r in Hx. rewrite Hx.
  apply (IH (String.length r)); [|reflexivity].
  rewrite str_length_app. destruct p; [contradiction | simpl; lia].
Qed.

Lemma py_lstrip_length (s : string) :
  (String.length (py_lstrip s) <= String.length s)%nat.
Proof.
  apply (py_lstrip_tail (fun t => (String.length t <= String.length s)%nat)); [|lia].
  intros p r. rewrite str_length_app. lia.
Qed.

(** Whitespace followed by whitespace is whitespace. *)
Lemma all_space_app (p q : string) :
  all_space p = true -> all_space q = true -> all_space (p +:+ q) = true.
Proof.
  remember (String.length p) as n eqn:Hn. revert p Hn.
  induction n as [n IH] using lt_wf_ind. intros p -> Hp Hq.
  destruct (py_lstrip_step_app p) as [Heq|(w & r & -> & Hw & Hx)].
  - unfold all_space in Hp. rewrite Heq in Hp. destruct p; [exact Hq | discriminate].
  - unfold all_space. rewrite str_app_assoc, Hx.
    apply (IH (String.length r)); [|reflexivity| |exact Hq].
    + rewrite str_length_app. destruct w; [contradiction | simpl; lia].
    + unfold all_space in *. specialize (Hx EmptyString).
      rewrite str_app_nil_r in Hx. now rewrite <- Hx.
Qed.

Lemma py_rstrip_cons (a : ascii) (r : string) :
  py_rstrip (String a r) =
    if all_space (String a r) then EmptyString else String a (py_rstrip r).
Proof. reflexivity. Qed.

(** What [rstrip] removes is whitespace. *)
Lemma py_rstrip_split (s : string) :
  exists q, s = py_rstrip s +:+ q /\ all_space q = true.
Proof.
  induction s as [|a r (q & Hq & Hsp)]; [now exists EmptyString|].
  rewrite py_rstrip_cons. destruct (all_space (String a r)) eqn:E.
  - now exists (String a r).
  - exists q. split; [|exact Hsp].
    change (String a r = String a (py_rstrip r +:+ q)). now rewrite <- Hq.
Qed.

Lemma py_rstrip_idem (s : string) : py_rstrip (py_rstrip s) = py_rstrip s.
Proof.
  induction s as [|a r IH]; [reflexivity|].
  rewrite py_rstrip_cons. destruct (all_space (String a r)) eqn:E; [reflexivity|].
  rewrite py_rstrip_cons, IH.
  destruct (all_space (String a (py_rstrip r))) eqn:E2; [|reflexivity].
  destruct (py_rstrip_split r) as (q & Hq & Hsp).
  pose proof (all_space_app _ _ E2 Hsp) as Hall.
  change (String a (py_rstrip r) +:+ q) with (String a (py_rstrip r +:+ q)) in Hall.
  rewrite <- Hq in Hall. congruence.
Qed.

(** A text that [lstrip] leaves alone does not start with whitespace. *)
Lemma py_lstrip_fixed (a : ascii) (r : string) :
  py_lstrip (String a r) = String a r <->
  is_space a = false /\
  match r with
  | String b r2 =>
      ws2 a b = false /\
      match r2 with
      | String c _ => ws3 a b c = false
      | EmptyString => True
      end
  | EmptyString => True
  end.
Proof.
  split.
  - intros Hfix. simpl in Hfix.
    destruct (is_space a).
    { pose proof (py_lstrip_length r) as Hlen. rewrite Hfix in Hlen. simpl in Hlen. lia. }
    split; [reflexivity|]. destruct r as [|b r2]; [exact I|].
    destruct (ws2 a b).
    { pose proof (py_lstrip_length r2) as Hlen. rewrite Hfix in Hlen. simpl in Hlen. lia. }
    split; [reflexivity|]. destruct r2 as [|c r3]; [exact I|].
    destruct (ws3 a b c); [|reflexivity].
    pose proof (py_lstrip_length r3) as Hlen. rewrite Hfix in Hlen. simpl in Hlen. lia.
  - intros [Ha Hr]. simpl. rewrite Ha. destruct r as [|b r2]; [reflexivity|].
    destruct Hr as [Hb Hr]. rewrite Hb. destruct r2 as [|c r3]; [reflexivity|].
    now rewrite Hr.
Qed.

Lemma py_lstrip_rstrip (t : string) :
  py_lstrip t = t -> py_lstrip (py_rstrip t) = py_rstrip t.
Proof.
  destruct t as [|a r]; [reflexivity|]. intros Hfix.
  rewrite py_rstrip_cons. unfold all_space. rewrite Hfix. simpl str_is_empty. cbv iota.
  apply py_lstrip_fixed in Hfix as [Ha Hr]. apply py_lstrip_fixed. split; [exact Ha|].
  destruct r as [|b r2]; [exact I|]. destruct Hr as [Hb Hr].
  rewrite py_rstrip_cons. destruct (all_space (String b r2)); [exact I|].
  split; [exact Hb|]. destruct r2 as [|c r3]; [exact I|].
  rewrite py_rstrip_cons. now destruct (all_space (String c r3)).
Qed.

(** Trimming a trimmed text changes nothing, whatever the characters. *)
Lemma py_strip_idem (s : string) : py_strip (py_strip s) = py_strip s.
Proof.
  unfold py_strip.
  rewrite (py_lstrip_rstrip (py_lstrip s) (py_lstrip_idem s)).
  apply py_rstrip_idem.
Qed.

(** X17. Normalization does not see the whitespace around the text,
    beyond ASCII included, nor the case of ASCII text: trimming the text
    beforehand, or lower-casing ASCII text beforehand, does not change the
    normalized name. *)
Theorem X17_normalize_case_and_space `{Runtime} :
  (forall s : string,
     _normalize_texture_name (VStr (py_strip s)) = _normalize_texture_name (VStr s)) /\
  (forall s : string,
     str_is_ascii s = true ->
     _normalize_texture_name (VStr (py_lower s)) = _normalize_texture_name (VStr s)) /\
  _normalize_texture_name (VStr Cases.clay_nbsp) = _normalize_texture_name (VStr "CLAY").
Proof.
  split; [|split; [|reflexivity]].
  - intros s. unfold _normalize_texture_name. simpl. now rewrite py_strip_idem.
  - intros s Hs. rewrite (py_lower_ascii s Hs).
    rewrite !normalize_texture_name_ascii; try reflexivity; simpl py_str;
      [|exact Hs|now rewrite str_lower_ascii].
    unfold normalize_ascii. now rewrite <- (str_lower_strip s), str_lower_idem.
Qed.

Lemma normalized_name_fixed `{Runtime} (value : pyval) (name : string) :
  _normalize_texture_name value = Some name ->
  str_is_ascii (py_str value) = true ->
  str_is_ascii name = true /\
  str_lower name = name /\
  str_strip name = name /\
  name <> "organic" /\ name <> "variable".
Proof.
  intros Hname Hs.
  destruct (is_None value) eqn:Hnone.
  { unfold _normalize_texture_name in Hname. rewrite Hnone in Hname. discriminate. }
  rewrite (normalize_texture_name_ascii value Hnone Hs) in Hname.
  revert Hname. unfold normalize_ascii.
  set (txt := str_lower (str_strip (py_str value))).
  assert (Hascii : str_is_ascii txt = true).
  { subst txt. rewrite str_lower_ascii. now apply str_strip_ascii. }
  assert (Hlow : str_lower txt = txt) by apply str_lower_idem.
  assert (Hstrip : str_strip txt = txt).
  { subst txt. now rewrite str_lower_strip, str_strip_idem. }
  destruct (str_is_empty txt); [discriminate|].
  set (token := if str_contains comma txt
                then str_strip (str_split_head comma txt) else txt).
  assert (Htoken : str_is_ascii token = true /\
                   str_lower token = token /\ str_strip token = token).
  { subst token. destruct (str_contains comma txt); [|now repeat split].
    split; [now apply str_strip_ascii, str_split_head_ascii|].
    split; [|apply str_strip_idem].
    now rewrite str_lower_strip, str_lower_split_head, Hlow. }
  destruct (String.eqb_spec token "organic") as [|Horg]; [discriminate|].
  destruct (String.eqb_spec token "variable") as [|Hvar]; [discriminate|].
  simpl. intros [= <-]. destruct Htoken as (? & ? & ?). repeat split; assumption.
Qed.

Lemma normalized_name_tokens `{Runtime} (value : pyval) (name : string) :
  _normalize_texture_name value = Some name ->
  name <> "organic" /\ name <> "variable".
Proof.
  unfold _normalize_texture_name.
  destruct (is_None value); [discriminate|].
  destruct (str_is_empty _); [discriminate|].
  match goal with
  | |- context [String.eqb ?t "organic"] => set (token := t)
  end.
  destruct (String.eqb_spec token "organic") as [|Horg]; [discriminate|].
  destruct (String.eqb_spec token "variable") as [|Hvar]; [discriminate|].
  simpl. intros [= <-]. now split.
Qed.

(** X18. A normalized name contains no comma and is neither "organic"
    nor "variable"; the name of ASCII text is ASCII text in normal form:
    lower-case and without whitespace at either end. *)
Theorem X18_normalized_name_shape `{Runtime} (value : pyval) (name : string) :
  _normalize_texture_name value = Some name ->
  str_contains comma name = false /\
  name <> "organic" /\ name <> "variable" /\
  (str_is_ascii (py_str value) = true ->
   str_is_ascii name = true /\ py_lower name = name /\ py_strip name = name).
Proof.
  intros Hname.
  pose proof (normalize_no_comma value name Hname) as Hcomma.
  destruct (normalized_name_tokens value name Hname) as [Horg Hvar].
  do 3 (split; [assumption|]).
  intros Hs.
  destruct (normalized_name_fixed value name Hname Hs) as (Hascii & Hlow & Hstrip & _).
  split; [exact Hascii|].
  now rewrite (py_lower_ascii name Hascii), (py_strip_ascii name Hascii).
Qed.

Lemma X18_normalized_name_shape_witness :
  str_contains comma "sandy loam" = false /\
  "sandy loam" <> "organic" /\ "sandy loam" <> "variable" /\
  (str_is_ascii "  Sandy Loam  " = true ->
   str_is_ascii "sandy loam" = true /\
   @py_lower Sample.raster_world "sandy loam" = "sandy loam" /\
   py_strip "sandy loam" = "sandy loam").
Proof.
  apply (@X18_normalized_name_shape Sample.raster_world (VStr "  Sandy Loam  ")).
  reflexivity.
Defined.

(** X19. Normalization is idempotent on ASCII text: a name obtained from
    ASCII text that is not empty normalizes to itself. *)
Theorem X19_normalize_idempotent `{Runtime} (value : pyval) (name : string) :
  _normalize_texture_name value = Some name ->
  str_is_ascii (py_str value) = true ->
  name <> "" ->
  _normalize_texture_name (VStr name) = Some name.
Proof.
  intros Hname Hs Hne.
  destruct (normalized_name_fixed value name Hname Hs)
    as (Hascii & Hlow & Hstrip & Horg & Hvar).
  pose proof (normalize_no_comma value name Hname) as Hcomma.
  rewrite normalize_texture_name_ascii; [|reflexivity|exact Hascii].
  unfold normalize_ascii. simpl py_str. rewrite Hstrip, Hlow, Hcomma.
  destruct name; [contradiction|]. simpl str_is_empty. cbv iota.
  destruct (String.eqb_spec (String a name) "organic"); [contradiction|].
  destruct (String.eqb_spec (String a name) "variable"); [contradiction|].
  reflexivity.
Qed.

Lemma X19_normalize_idempotent_witness :
  @_normalize_texture_name Sample.raster_world (VStr "clay") = Some "clay".
Proof.
  apply (@X19_normalize_idempotent Sample.raster_world (VStr "Clay, Clay Loam") "clay");
    [reflexivity | reflexivity | discriminate].
Defined.

Lemma str_lstrip_app (s r : string) (c : ascii) :
  is_space c = false ->
  str_lstrip (s +:+ String c r) = str_lstrip s +:+ String c r.
Proof.
  intros Hc. induction s as [|a s IH]; simpl; [now rewrite Hc|].
  destruct (is_space a); [exact IH | reflexivity].
Qed.

Lemma str_rstrip_app (s r : string) (c : ascii) :
  is_space c = false ->
  str_rstrip (s +:+ String c r) = s +:+ String c (str_rstrip r).
Proof.
  intros Hc. induction s as [|a s IH].
  - apply (str_rstrip_cons c r Hc).
  - change (String a s +:+ String c r) with (String a (s +:+ String c r)).
    change (str_rstrip (String a (s +:+ String c r)))
      with (match str_rstrip (s +:+ String c r) with
            | EmptyString => if is_space a then EmptyString else String a EmptyString
            | String _ _ as t => String a t
            end).
    rewrite IH. now destruct s.
Qed.

Lemma str_split_head_app (s r : string) :
  str_contains comma s = false ->
  str_split_head comma (s +:+ String comma r) = s.
Proof.
  induction s as [|a s IH]; simpl; [reflexivity|].
  intros Hc. apply orb_false_elim in Hc as [Ha Hs].
  rewrite Ha. f_equal. now apply IH.
Qed.

Lemma str_contains_app (s r : string) :
  str_contains comma (s +:+ String comma r) = true.
Proof.
  induction s as [|a s IH]; simpl; [reflexivity | rewrite IH; apply orb_true_r].
Qed.

(** The first class of a list of ASCII text. *)
Lemma normalize_ascii_first (first rest : string) :
  str_contains comma first = false ->
  normalize_ascii (first +:+ "," +:+ rest) =
    (let token := str_lower (str_strip first) in
     if String.eqb token "organic" || String.eqb token "variable"
     then None else Some token).
Proof.
  intros Hfirst.
  assert (Hcomma : is_space comma = false) by reflexivity.
  assert (Htxt : str_lower (str_strip (first +:+ String comma rest))
                 = str_lower (str_lstrip first)
                   +:+ String comma (str_lower (str_rstrip rest))).
  { unfold str_strip.
    now rewrite (str_lstrip_app first rest comma Hcomma),
                (str_rstrip_app (str_lstrip first) rest comma Hcomma),
                str_lower_app. }
  unfold normalize_ascii.
  change ("," +:+ rest) with (String comma rest). rewrite Htxt.
  assert (Hhead : str_contains comma (str_lower (str_lstrip first)) = false).
  { rewrite str_lower_contains_comma. now apply str_contains_lstrip. }
  rewrite str_contains_app, (str_split_head_app _ _ Hhead).
  assert (Htoken : str_strip (str_lower (str_lstrip first))
                   = str_lower (str_strip first)).
  { rewrite <- str_lower_strip. unfold str_strip. now rewrite str_lstrip_idem. }
  rewrite Htoken.
  destruct (str_lower (str_lstrip first)); reflexivity.
Qed.

(** X20. When several classes are listed only the first one counts: for
    ASCII text [first] without comma, the name of [first + "," + rest] is
    the trimmed, lower-cased [first] (or [None] if that is "organic" or
    "variable"), whatever the ASCII text [rest] is.  So the list
    normalizes like [first] alone, except when [first] is blank: then the
    name is the empty string, not [None]. *)
Theorem X20_first_class_only `{Runtime} (first rest : string) :
  str_is_ascii first = true ->
  str_is_ascii rest = true ->
  str_contains comma first = false ->
  _normalize_texture_name (VStr (first +:+ "," +:+ rest)) =
    (let token := py_lower (py_strip first) in
     if String.eqb token "organic" || String.eqb token "variable"
     then None else Some token) /\
  (py_strip first <> "" ->
   _normalize_texture_name (VStr (first +:+ "," +:+ rest))
   = _normalize_texture_name (VStr first)) /\
  (py_strip first = "" ->
   _normalize_texture_name (VStr (first +:+ "," +:+ rest)) = Some "" /\
   _normalize_texture_name (VStr first) = None).
Proof.
  intros Hf Hr Hfirst.
  assert (Hall : str_is_ascii (first +:+ "," +:+ rest) = true).
  { rewrite str_is_ascii_app, Hf. simpl. exact Hr. }
  rewrite (normalize_texture_name_ascii (VStr (first +:+ "," +:+ rest)) eq_refl Hall).
  rewrite (normalize_texture_name_ascii (VStr first) eq_refl Hf).
  rewrite (py_strip_ascii first Hf), (py_lower_ascii _ (str_strip_ascii first Hf)).
  simpl py_str. rewrite (normalize_ascii_first first rest Hfirst).
  split; [reflexivity|]. split.
  - intros Hne. unfold normalize_ascii.
    rewrite str_lower_contains_comma, (str_contains_strip comma first Hfirst).
    destruct (str_lower (str_strip first)) as [|a t] eqn:Hlow; [|reflexivity].
    apply str_lower_empty in Hlow. contradiction.
  - intros Hblank. unfold normalize_ascii. rewrite Hblank. split; reflexivity.
Qed.

Lemma X20_first_class_only_witness :
  @_normalize_texture_name Sample.raster_world (VStr ("Silty Clay " +:+ "," +:+ " Organic"))
  = @_normalize_texture_name Sample.raster_world (VStr "Silty Clay ") /\
  @_normalize_texture_name Sample.raster_world (VStr ("  " +:+ "," +:+ "clay")) = Some "".
Proof.
  split.
  - apply (proj1 (proj2 (@X20_first_class_only Sample.raster_world "Silty Clay " " Organic"
                           eq_refl eq_refl eq_refl))).
    discriminate.
  - apply (proj2 (proj2 (@X20_first_class_only Sample.raster_world "  " "clay"
                           eq_refl eq_refl eq_refl))).
    reflexivity.
Defined.

(* ===================================================================== *)
(** ** Further properties: the rainfall profile                           *)
(* ===================================================================== *)

(** A row of the profile for the year [y]. *)
Lemma annual_rainfall_rows `{Runtime}
    (geom_raw : pyval) (years : list Z) (rows : list pyval) :
  annual_rainfall geom_raw years = Ok rows ->
  Forall2 (fun y row =>
             exists value, get_rainfall geom_raw (Some y) = Ok value /\
                           row = VDict [("year", VInt y); ("rainfall_mm", value)])
          years rows.
Proof.
  revert rows. induction years as [|y years IH]; intros rows; simpl.
  - intros [= <-]. constructor.
  - destruct (get_rainfall geom_raw (Some y)) as [value|e] eqn:Hy; simpl; [|discriminate].
    destruct (annual_rainfall geom_raw years) as [tail|e]; simpl; [|discriminate].
    intros [= <-]. constructor; [eauto | now apply IH].
Qed.

Lemma build_farm_profile_rows `{Runtime}
    (farm_id geom_raw : pyval) (years : list Z) (profile : pyval) :
  build_farm_profile farm_id geom_raw years = Ok profile ->
  exists rows,
    annual_rainfall geom_raw years = Ok rows /\
    profile = VDict [("farm_id", farm_id); ("geometry", geom_raw);
                     ("rainfall", VList rows)].
Proof.
  unfold build_farm_profile.
  destruct (parse_geometry geom_raw) as [geom|e]; simpl; [|discriminate].
  destruct (annual_rainfall geom_raw years) as [rows|e]; simpl; [|discriminate].
  intros [= <-]. eauto.
Qed.

(** X21. The rows of a profile follow the years asked for: one row per
    year, in the same order, repeated years included, each row holding
    its year and what [get_rainfall] returns for that year; the farm id
    and the raw geometry are passed through unchanged. *)
Theorem X21_profile_rows_follow_years `{Runtime}
    (farm_id geom_raw : pyval) (years : list Z) (profile : pyval) :
  build_farm_profile farm_id geom_raw years = Ok profile ->
  exists rows,
    profile = VDict [("farm_id", farm_id); ("geometry", geom_raw);
                     ("rainfall", VList rows)] /\
    Forall2 (fun y row =>
               exists value, get_rainfall geom_raw (Some y) = Ok value /\
                             row = VDict [("year", VInt y); ("rainfall_mm", value)])
            years rows.
Proof.
  intros Hbuild.
  destruct (build_farm_profile_rows _ _ _ _ Hbuild) as (rows & Hrows & ->).
  exists rows. split; [reflexivity | now apply annual_rainfall_rows].
Qed.

Lemma X21_profile_rows_follow_years_witness :
  exists rows,
    VDict [("farm_id", VStr "F1"); ("geometry", Sample.point);
           ("rainfall",
            VList [VDict [("year", VInt 2024); ("rainfall_mm", VInt 1524)];
                   VDict [("year", VInt 2024); ("rainfall_mm", VInt 1524)]])]
    = VDict [("farm_id", VStr "F1"); ("geometry", Sample.point);
             ("rainfall", VList rows)] /\
    Forall2 (fun y row =>
               exists value,
                 @get_rainfall Sample.raster_world Sample.point (Some y) = Ok value /\
                 row = VDict [("year", VInt y); ("rainfall_mm", value)])
            [2024; 2024] rows.
Proof.
  apply (@X21_profile_rows_follow_years Sample.raster_world
           (VStr "F1") Sample.point [2024; 2024]).
  reflexivity.
Defined.

(** X22. A profile is built entirely or not at all: a geometry that does
    not parse raises before any rainfall is asked for, and the first year
    whose rainfall cannot be extracted makes the whole call raise that
    year's exception, the years before it being lost. *)
Theorem X22_profile_all_or_nothing `{Runtime}
    (farm_id geom_raw : pyval) (before after : list Z) (y : Z) (e : exn) :
  (parse_geometry geom_raw = Raise e ->
   build_farm_profile farm_id geom_raw (before ++ y :: after) = Raise e) /\
  ((exists geom, parse_geometry geom_raw = Ok geom) ->
   (forall y0, y0 ∈ before -> exists value, get_rainfall geom_raw (Some y0) = Ok value) ->
   get_rainfall geom_raw (Some y) = Raise e ->
   build_farm_profile farm_id geom_raw (before ++ y :: after) = Raise e).
Proof.
  unfold build_farm_profile. split.
  - intros ->. reflexivity.
  - intros [geom ->] Hbefore Hy. rewrite bind_Ok.
    assert (Hrain : annual_rainfall geom_raw (before ++ y :: after) = Raise e).
    { induction before as [|y0 before IH]; simpl.
      - now rewrite Hy.
      - destruct (Hbefore y0 ltac:(set_solver)) as [value ->]. rewrite bind_Ok.
        rewrite IH; [reflexivity|]. intros y1 Hy1. apply Hbefore. set_solver. }
    now rewrite Hrain.
Qed.

Lemma X22_profile_all_or_nothing_witness :
  @build_farm_profile Cases.gap_world (VStr "F1") Sample.point ([2021] ++ 2022 :: [2023])
  = Raise (mkExn "EEException" "no images for 2022").
Proof.
  apply (proj2 (@X22_profile_all_or_nothing Cases.gap_world (VStr "F1") Sample.point
                  [2021] [2023] 2022 (mkExn "EEException" "no images for 2022"))).
  - eexists. reflexivity.
  - intros y0 Hy0. apply list_elem_of_singleton in Hy0 as ->. eexists. reflexivity.
  - reflexivity.
Defined.

(** X23. Every rainfall value in a profile is [None] or an int: no row
    holds a float. *)
Theorem X23_profile_rainfall_types `{Runtime}
    (farm_id geom_raw : pyval) (years : list Z) (profile : pyval) :
  build_farm_profile farm_id geom_raw years = Ok profile ->
  exists rows,
    profile = VDict [("farm_id", farm_id); ("geometry", geom_raw);
                     ("rainfall", VList rows)] /\
    Forall (fun row =>
              exists y value,
                row = VDict [("year", VInt y); ("rainfall_mm", value)] /\
                (value = VNone \/ exists z, value = VInt z))
           rows.
Proof.
  intros Hbuild.
  destruct (build_farm_profile_rows _ _ _ _ Hbuild) as (rows & Hrows & ->).
  exists rows. split; [reflexivity|].
  apply annual_rainfall_rows in Hrows.
  clear Hbuild.
  induction Hrows as [|y row years rows Hrow _ IH]; [constructor|].
  destruct Hrow as (value & Hvalue & ->). constructor; [|exact IH].
  exists y, value. split; [reflexivity|].
  exact (proj2 (proj2 (proj2 (rounded_int_tail _))) value Hvalue).
Qed.

Lemma X23_profile_rainfall_types_witness :
  exists rows,
    VDict [("farm_id", VStr "F1"); ("geometry", Sample.point);
           ("rainfall", VList [VDict [("year", VInt 0); ("rainfall_mm", VInt 1524)]])]
    = VDict [("farm_id", VStr "F1"); ("geometry", Sample.point);
             ("rainfall", VList rows)] /\
    Forall (fun row =>
              exists y value,
                row = VDict [("year", VInt y); ("rainfall_mm", value)] /\
                (value = VNone \/ exists z, value = VInt z))
           rows.
Proof.
  apply (@X23_profile_rainfall_types Sample.raster_world (VStr "F1") Sample.point [0]).
  reflexivity.
Defined.

(* ===================================================================== *)
(** ** Further properties: vector extraction and the centroid             *)
(* ===================================================================== *)

(** X24. The "field" key of a vector descriptor is only read once a
    feature is found: without it, [_extract_from_vector] still returns
    [None] where no feature intersects the geometry, and raises
    [KeyError] where one does. *)
Theorem X24_vector_missing_field `{Runtime}
    (geometry : pyval) (name : string) (cfg : config) (geom : ee_obj) (asset_id : pyval) :
  get_dataset_config name = Ok cfg ->
  parse_geometry geometry = Ok geom ->
  cfg !! "asset_id" = Some asset_id ->
  cfg !! "field" = None ->
  (first (ee_filterBounds (ee_FeatureCollection asset_id) geom) = Ok None ->
   _extract_from_vector geometry name = Ok VNone) /\
  (forall feature,
     first (ee_filterBounds (ee_FeatureCollection asset_id) geom) = Ok (Some feature) ->
     _extract_from_vector geometry name = Raise (KeyError "field")).
Proof.
  intros Hcfg Hgeom Ha Hf. unfold _extract_from_vector, getitem.
  rewrite Hcfg, bind_Ok, Hgeom, bind_Ok, Ha, bind_Ok. split.
  - intros ->. reflexivity.
  - intros feature ->. rewrite bind_Ok, Hf. reflexivity.
Qed.

Lemma X24_vector_missing_field_witness :
  @_extract_from_vector Cases.no_field_world Sample.polygon "soil_texture" = Ok VNone /\
  @_extract_from_vector Cases.no_field_world Sample.point "soil_texture"
    = Raise (KeyError "field").
Proof.
  split.
  - apply (proj1 (@X24_vector_missing_field Cases.no_field_world Sample.polygon
                    "soil_texture" Cases.texture_no_field (ee_Geometry Sample.polygon)
                    (VStr "projects/sample/assets/soil_texture")
                    eq_refl eq_refl eq_refl eq_refl)).
    reflexivity.
  - apply (proj2 (@X24_vector_missing_field Cases.no_field_world Sample.point
                    "soil_texture" Cases.texture_no_field (ee_Geometry Sample.point)
                    (VStr "projects/sample/assets/soil_texture")
                    eq_refl eq_refl eq_refl eq_refl) Sample.feature).
    reflexivity.
Defined.

(** X25. [get_centroid_lat_lon] returns a pair or raises, never half a
    result: when the service gives a list of fewer than two coordinates
    the call raises. *)
Theorem X25_centroid_short_coordinates `{Runtime}
    (geometry : pyval) (geom : ee_obj) (coords : list pyval) :
  parse_geometry geometry = Ok geom ->
  getInfo (ee_coordinates (ee_centroid geom 1)) = Ok (VList coords) ->
  (length coords < 2)%nat ->
  exists e, get_centroid_lat_lon geometry = Raise e.
Proof.
  intros Hgeom Hinfo Hlen. unfold get_centroid_lat_lon.
  rewrite Hgeom, bind_Ok, Hinfo, bind_Ok.
  destruct coords as [|c0 [|c1 rest]]; simpl in Hlen; [| |lia].
  - eexists. reflexivity.
  - simpl. destruct (py_float c0) as [lon|e]; simpl; eexists; reflexivity.
Qed.

Lemma X25_centroid_short_coordinates_witness :
  exists e, @get_centroid_lat_lon Cases.short_world Sample.polygon = Raise e.
Proof.
  apply (@X25_centroid_short_coordinates Cases.short_world Sample.polygon
           (ee_Geometry Sample.polygon) [VFloat 125.57] eq_refl eq_refl).
  simpl. lia.
Defined.

(* ===================================================================== *)
(** ** Further properties: the geometry helpers                           *)
(* ===================================================================== *)

(** X26. [to_2d] never raises: it returns the converted geometry, or the
    geometry it was given when the conversion fails. *)
Theorem X26_to_2d_never_raises {geom : Type} `{Shapely geom} (g : geom) :
  exists g2,
    to_2d g = Ok g2 /\
    (shape_of_mapping g = Ok g2 \/
     g2 = g /\ exists e, shape_of_mapping g = Raise e).
Proof.
  unfold to_2d. destruct (shape_of_mapping g) as [g2|e].
  - exists g2. split; [reflexivity | now left].
  - exists g. split; [reflexivity | right; eauto].
Qed.

(** X27. [fix_geometry] returns a valid geometry as it is and repairs
    every other one with [buffer(0)], also when the validity test itself
    fails; the only exception it can raise is one of [buffer(0)]. *)
Theorem X27_fix_geometry {geom : Type} `{Shapely geom} (g : geom) :
  (is_valid g = Ok true -> fix_geometry g = Ok g) /\
  (is_valid g = Ok false -> fix_geometry g = buffer0 g) /\
  (forall e, is_valid g = Raise e -> fix_geometry g = buffer0 g) /\
  (forall e, fix_geometry g = Raise e -> buffer0 g = Raise e).
Proof.
  unfold fix_geometry. repeat split.
  - intros ->. reflexivity.
  - intros ->. simpl. now destruct (buffer0 g).
  - intros e ->. reflexivity.
  - intros e. destruct (is_valid g) as [[|]|e0]; simpl; try discriminate;
      try (intros Hb; exact Hb).
    destruct (buffer0 g); [discriminate | intros Hb; exact Hb].
Qed.

Lemma X27_fix_geometry_witness :
  @fix_geometry Z Cases.parity 4 = Ok 4 /\ @fix_geometry Z Cases.parity 5 = Ok 6.
Proof.
  split.
  - apply (proj1 (@X27_fix_geometry Z Cases.parity 4)). reflexivity.
  - rewrite (proj1 (proj2 (@X27_fix_geometry Z Cases.parity 5)) eq_refl). reflexivity.
Defined.
